(** * Nocturne TConnectSync connector: metrics tracker and upload hook

    A shallow embedding of
    [src/Connectors/Nocturne.Connectors.TConnectSync/main.py]:
    the [MetricsTracker] class, the monkey-patched [patched_upload_entry]
    and the [/health/data] handler, followed by the properties the
    connector's specification states about them. *)

From Stdlib Require Import ZArith Lia String Ascii List Bool.
From stdpp Require Import base option list strings gmap sorting.

Local Open Scope string_scope.
Local Open Scope Z_scope.
Local Open Scope list_scope.

(** ** Python values the connector touches *)

Module Py.

(** A [datetime]: the wall-clock fields as microseconds on the proleptic
    calendar (counted from 1970-01-01T00:00:00), and the UTC offset of its
    [tzinfo] in microseconds; [None] is a naive datetime. *)
Record datetime := mk_datetime {
  dt_wall : Z;
  dt_utcoffset : option Z
}.

#[export] Instance datetime_eq_dec : EqDecision datetime.
Proof. solve_decision. Defined.

(** The exceptions that reach the code under study. *)
Inductive exn := ValueError | AttributeError | TypeError.

#[export] Instance exn_eq_dec : EqDecision exn.
Proof. solve_decision. Defined.

(** Result of running a statement: normal completion or a raised
    exception. *)
Inductive outcome (A : Type) :=
| Ok (a : A)
| Raise (e : exn).
Arguments Ok {A} a.
Arguments Raise {A} e.

(** [datetime.now(timezone.utc)] when the system clock reads [clock]
    microseconds after the epoch. *)
Definition now_utc (clock : Z) : datetime :=
  {| dt_wall := clock; dt_utcoffset := Some 0 |}.

(** The POSIX instant of an aware datetime, in microseconds: the exact
    value of which [d.timestamp()] returns the nearest double
    ([timestamp_f64] below).  A naive value would be read in the system
    zone; every datetime whose [timestamp] the connector takes is a
    [now_utc]. *)
Definition timestamp (d : datetime) : Z :=
  dt_wall d - default 0 (dt_utcoffset d).

(** [a > b] on datetimes: aware values compare by instant, naive values
    by their fields, and a naive against an aware one raises
    [TypeError: can't compare offset-naive and offset-aware datetimes]. *)
Definition dt_gt (a b : datetime) : outcome bool :=
  match dt_utcoffset a, dt_utcoffset b with
  | Some oa, Some ob => Ok (dt_wall b - ob <? dt_wall a - oa)
  | None, None => Ok (dt_wall b <? dt_wall a)
  | _, _ => Raise TypeError
  end.

(** Values a record field may hold. *)
Inductive value :=
| VNone
| VBool (b : bool)
| VInt (n : Z)
| VStr (s : string)
| VDatetime (d : datetime).

(** [s.replace(old, new)] for a one-character [old]: every occurrence is
    replaced, left to right. *)
Fixpoint str_replace (old : ascii) (new : string) (s : string) : string :=
  match s with
  | EmptyString => EmptyString
  | String c rest =>
      if Ascii.eqb c old then new +:+ str_replace old new rest
      else String c (str_replace old new rest)
  end.

End Py.
Import Py.

(** ** MetricsTracker *)

Record MetricsTracker := mk_tracker {
  total_entries : Z;
  last_entry_time : option datetime;
  last_sync_time : option datetime;
  _entries_buffer : list datetime
}.

(** [MetricsTracker.__init__] *)
Definition init : MetricsTracker :=
  {| total_entries := 0;
     last_entry_time := None;
     last_sync_time := None;
     _entries_buffer := [] |}.

Definition set_total (n : Z) (m : MetricsTracker) : MetricsTracker :=
  {| total_entries := n;
     last_entry_time := last_entry_time m;
     last_sync_time := last_sync_time m;
     _entries_buffer := _entries_buffer m |}.

Definition set_last_entry (t : option datetime) (m : MetricsTracker) : MetricsTracker :=
  {| total_entries := total_entries m;
     last_entry_time := t;
     last_sync_time := last_sync_time m;
     _entries_buffer := _entries_buffer m |}.

Definition set_last_sync (t : option datetime) (m : MetricsTracker) : MetricsTracker :=
  {| total_entries := total_entries m;
     last_entry_time := last_entry_time m;
     last_sync_time := t;
     _entries_buffer := _entries_buffer m |}.

Definition set_buffer (b : list datetime) (m : MetricsTracker) : MetricsTracker :=
  {| total_entries := total_entries m;
     last_entry_time := last_entry_time m;
     last_sync_time := last_sync_time m;
     _entries_buffer := b |}.

(** [MetricsTracker.record_entry(timestamp)], run when the clock reads
    [clock].  The tracker is returned together with the outcome: the
    assignments made before a raise stay in the object.  A datetime is
    always truthy, so [if timestamp:] tests for [None]. *)
Definition record_entry (clock : Z) (timestamp : option datetime)
    (self : MetricsTracker) : outcome unit * MetricsTracker :=
  let self := set_total (total_entries self + 1) self in
  let now := now_utc clock in
  let self := set_last_sync (Some now) self in
  match timestamp with
  | Some ts =>
      let newer :=
        match last_entry_time self with
        | None => Ok true
        | Some last => dt_gt ts last
        end in
      match newer with
      | Raise e => (Raise e, self)
      | Ok b =>
          let self := if b then set_last_entry (Some ts) self else self in
          (Ok tt, set_buffer (_entries_buffer self ++ [now]) self)
      end
  | None => (Ok tt, self)
  end.

(** Microseconds in the 24 * 3600 seconds of the window. *)
Definition window : Z := 24 * 3600 * 1000000.

Section Rendering.

(** [datetime.isoformat], the library's rendering. *)
Variable isoformat : datetime -> string.

(** The dict returned by [get_metrics]. *)
Record Metrics := mk_metrics {
  totalEntries : Z;
  lastEntryTime : option string;
  entriesLast24Hours : Z;
  lastSyncTime : option string
}.

(** [MetricsTracker.get_metrics()], run when the clock reads [clock]. *)
Definition get_metrics (clock : Z) (self : MetricsTracker) : Metrics * MetricsTracker :=
  let now := now_utc clock in
  let cutoff := timestamp now - window in
  let self :=
    set_buffer (filter (fun t => cutoff < timestamp t) (_entries_buffer self)) self in
  ({| totalEntries := total_entries self;
      lastEntryTime := isoformat <$> last_entry_time self;
      entriesLast24Hours := Z.of_nat (length (_entries_buffer self));
      lastSyncTime := isoformat <$> last_sync_time self |},
   self).

End Rendering.

(** ** Operation traces on the tracker

    The tracker is a process-wide singleton touched only through
    [record_entry] and [get_metrics], each under the lock; a history of
    the object is a sequence of such calls with the clock reading each
    one saw. *)
Inductive op :=
| Record_entry (clock : Z) (timestamp : option datetime)
| Get_metrics (clock : Z).

Definition op_clock (o : op) : Z :=
  match o with
  | Record_entry clock _ => clock
  | Get_metrics clock => clock
  end.

Definition step (isoformat : datetime -> string) (o : op)
    (self : MetricsTracker) : MetricsTracker :=
  match o with
  | Record_entry clock ts => (record_entry clock ts self).2
  | Get_metrics clock => (get_metrics isoformat clock self).2
  end.

Definition run (isoformat : datetime -> string) (history : list op)
    (self : MetricsTracker) : MetricsTracker :=
  fold_left (fun m o => step isoformat o m) history self.

(** The calls of a history that carried a timestamp, as (clock reading,
    timestamp) pairs in call order. *)
Definition timed_calls (history : list op) : list (Z * datetime) :=
  omap (fun o => match o with
                 | Record_entry clock (Some ts) => Some (clock, ts)
                 | _ => None
                 end) history.

Definition is_record (o : op) : bool :=
  match o with Record_entry _ _ => true | Get_metrics _ => false end.

(** ** The interception hook *)

Inductive log_record :=
| Info (msg : string)
| Error (msg : string) (e : exn).

(** The module globals the hook reaches: the [metrics] singleton and what
    [logger] has emitted. *)
Record World := mk_world {
  metrics : MetricsTracker;
  logger : list log_record
}.

(** Statements over the globals that may raise. *)
Definition Stmt (A : Type) : Type := World -> outcome A * World.

Definition ret {A} (a : A) : Stmt A := fun w => (Ok a, w).

Definition raise {A} (e : exn) : Stmt A := fun w => (Raise e, w).

Definition bind {A B} (c : Stmt A) (k : A -> Stmt B) : Stmt B :=
  fun w =>
    match c w with
    | (Ok a, w') => k a w'
    | (Raise e, w') => (Raise e, w')
    end.

#[export] Instance stmt_ret : MRet Stmt := @ret.
#[export] Instance stmt_bind : MBind Stmt := fun A B k c => bind c k.

(** [try: body except <classes> as e: handler e] *)
Definition try_except {A} (body : Stmt A) (classes : exn -> bool)
    (handler : exn -> Stmt A) : Stmt A :=
  fun w =>
    match body w with
    | (Ok a, w') => (Ok a, w')
    | (Raise e, w') => if classes e then handler e w' else (Raise e, w')
    end.

Definition lift_outcome {A} (r : outcome A) : Stmt A := fun w => (r, w).

Definition logger_info (msg : string) : Stmt unit :=
  fun w => (Ok tt, {| metrics := metrics w; logger := logger w ++ [Info msg] |}).

Definition logger_error (msg : string) (e : exn) : Stmt unit :=
  fun w => (Ok tt, {| metrics := metrics w; logger := logger w ++ [Error msg e] |}).

(** [metrics.record_entry(entry_time)] on the global tracker. *)
Definition metrics_record_entry (clock : Z) (entry_time : option datetime) : Stmt unit :=
  fun w =>
    let '(r, m) := record_entry clock entry_time (metrics w) in
    (r, {| metrics := m; logger := logger w |}).

(** [v.replace('Z', '+00:00')]: the string method on a [str]; [None],
    [bool] and [int] have no attribute [replace]; [datetime.replace]
    rejects string arguments. *)
Definition value_replace (v : value) : outcome string :=
  match v with
  | VStr s => Ok (str_replace "Z" "+00:00" s)
  | VDatetime _ => Raise TypeError
  | VNone | VBool _ | VInt _ => Raise AttributeError
  end.

Definition is_ValueError (e : exn) : bool :=
  match e with ValueError => true | _ => false end.

(** [except Exception]: every exception modelled here is one. *)
Definition is_Exception (e : exn) : bool := true.

Section Hook.

(** [datetime.fromisoformat] on a [str]: the parsed datetime, or [None]
    where the library raises [ValueError]. *)
Variable fromisoformat : string -> option datetime.

(** The wrapped [NightscoutApi.upload_entry]: the receiver, the value it
    returns and what it does are the engine's. *)
Variables (NightscoutApi Response : Type).
Variable original_upload_entry :
  NightscoutApi -> gmap string value -> string -> outcome Response.

Definition datetime_fromisoformat (s : string) : outcome datetime :=
  match fromisoformat s with
  | Some d => Ok d
  | None => Raise ValueError
  end.

(** Lines 65-71 of the hook: the value left in [entry_time]. *)
Definition extract_entry_time (ns_format : gmap string value) : Stmt (option datetime) :=
  match ns_format !! "created_at" with
  | Some created_at =>
      try_except
        (s ← lift_outcome (value_replace created_at);
         d ← lift_outcome (datetime_fromisoformat s);
         ret (Some d))
        is_ValueError
        (fun _ => ret None)
  | None => ret None
  end.

(** [patched_upload_entry(self, ns_format, entity)], with the clock
    reading [clock] that [record_entry] sees if it is reached. *)
Definition patched_upload_entry (clock : Z) (self : NightscoutApi)
    (ns_format : gmap string value) (entity : string) : Stmt Response :=
  try_except
    (entry_time ← extract_entry_time ns_format;
     metrics_record_entry clock entry_time;;
     logger_info ("Intercepted upload for " +:+ entity))
    is_Exception
    (fun e => logger_error "Error tracking metrics: " e);;
  lift_outcome (original_upload_entry self ns_format entity).

End Hook.

(** ** Health reporter *)

Record Configuration := mk_configuration {
  syncIntervalMinutes : Z;
  connectSource : string
}.

Record HealthData := mk_health_data {
  connectorName : string;
  status : string;
  health_metrics : Metrics;
  recentEntries : list value;
  configuration : Configuration
}.

(** [health_data()], the handler of [GET /health/data], on the global
    tracker. *)
Definition health_data (isoformat : datetime -> string) (clock : Z)
    (self : MetricsTracker) : HealthData * MetricsTracker :=
  let '(m, self) := get_metrics isoformat clock self in
  let config :=
    {| syncIntervalMinutes := 1; connectSource := "TConnectSync (Python)" |} in
  ({| connectorName := "Tandem Connector";
      status := "running";
      health_metrics := m;
      recentEntries := [];
      configuration := config |},
   self).

(** ** The snapshot in double precision

    [get_metrics] above decides the 24-hour test on exact instants.  The
    source decides it on floats: [t.timestamp()] is the double nearest to
    the instant in seconds, [now.timestamp() - 24 * 3600] is a float
    subtraction, and [>] compares the two doubles.  The definitions below
    follow the source to that level.

    A finite double is held as its exact value counted in units of
    2^-1074, the spacing of the smallest doubles, so that every double is
    an integer and doubles compare as integers.  Rounding is to nearest,
    ties to even, on 53 significant bits; no value the connector can form
    reaches the overflow threshold. *)
Definition f64_unit : Z := 2 ^ 1074.

(** [p / q] rounded to the nearest integer, ties to the even one. *)
Definition round_half_even (p q : Z) : Z :=
  let f := p / q in
  let r := p mod q in
  if 2 * r <? q then f
  else if q <? 2 * r then f + 1
  else if Z.even f then f else f + 1.

(** The double nearest to [p / q] units, for [0 <= p] and [0 < q]: a value
    of more than 53 bits is rounded to a multiple of the power of two that
    leaves 53 of them. *)
Definition round_pos (p q : Z) : Z :=
  let j := Z.max 0 (Z.log2 (p / q) + 1 - 53) in
  round_half_even p (q * 2 ^ j) * 2 ^ j.

Definition round_f64 (p q : Z) : Z :=
  if p <? 0 then - round_pos (- p) q else round_pos p q.

(** [d.timestamp()]: the microsecond count divided by [10**6], correctly
    rounded. *)
Definition timestamp_f64 (d : datetime) : Z :=
  round_f64 (timestamp d * f64_unit) 1000000.

(** [x - n] for a double [x] and an [int] [n] that converts exactly. *)
Definition f64_sub_int (x n : Z) : Z := round_f64 (x - n * f64_unit) 1.

(** [cutoff = now.timestamp() - 24 * 3600] *)
Definition cutoff_f64 (clock : Z) : Z :=
  f64_sub_int (timestamp_f64 (now_utc clock)) (24 * 3600).

(** [MetricsTracker.get_metrics()] with the doubles the source compares. *)
Definition get_metrics_f64 (isoformat : datetime -> string) (clock : Z)
    (self : MetricsTracker) : Metrics * MetricsTracker :=
  let now := now_utc clock in
  let cutoff := f64_sub_int (timestamp_f64 now) (24 * 3600) in
  let self :=
    set_buffer
      (filter (fun t => cutoff < timestamp_f64 t) (_entries_buffer self))
      self in
  ({| totalEntries := total_entries self;
      lastEntryTime := isoformat <$> last_entry_time self;
      entriesLast24Hours := Z.of_nat (length (_entries_buffer self));
      lastSyncTime := isoformat <$> last_sync_time self |},
   self).

Definition step_f64 (isoformat : datetime -> string) (o : op)
    (self : MetricsTracker) : MetricsTracker :=
  match o with
  | Record_entry clock ts => (record_entry clock ts self).2
  | Get_metrics clock => (get_metrics_f64 isoformat clock self).2
  end.

Definition run_f64 (isoformat : datetime -> string) (history : list op)
    (self : MetricsTracker) : MetricsTracker :=
  fold_left (fun m o => step_f64 isoformat o m) history self.

(** Spacing of the doubles below 2^32, in units: error bounds are stated
    with it. *)
Definition f64_spacing : Z := 2 ^ 1053.

(** Clock readings, in microseconds, from the epoch up to 2^32 seconds
    (7 February 2106), the span on which the bounds below are proved. *)
Definition f64_range : Z := 2 ^ 32 * 1000000.

(** ** A concrete instance of the library's ISO-8601 functions

    [iso_parse] accepts the layouts [YYYY-MM-DD],
    [YYYY-MM-DD?HH:MM:SS] and [YYYY-MM-DD?HH:MM:SS+HH:MM] (either
    sign, any one separator character [?]) and rejects every other
    string; on the accepted layouts it computes the datetime the library's
    [fromisoformat] returns.  [iso_format] is [isoformat].  They
    instantiate the two library functions in the examples below. *)
Module Iso.

Definition us_per_second : Z := 1000000.
Definition us_per_day : Z := 86400 * us_per_second.

Definition digit (c : ascii) : option Z :=
  let n := Z.of_N (N_of_ascii c) in
  if (48 <=? n) && (n <=? 57) then Some (n - 48) else None.

Definition num2 (a b : ascii) : option Z :=
  x ← digit a; y ← digit b; Some (10 * x + y).

Definition is_leap (y : Z) : bool :=
  (y mod 4 =? 0) && (negb (y mod 100 =? 0) || (y mod 400 =? 0)).

Definition days_in_month (y m : Z) : Z :=
  if m =? 2 then (if is_leap y then 29 else 28)
  else if (m =? 4) || (m =? 6) || (m =? 9) || (m =? 11) then 30
  else 31.

(** Days from 1970-01-01 to the civil date [y]-[m]-[d]. *)
Definition days_from_civil (y m d : Z) : Z :=
  let y' := if m <=? 2 then y - 1 else y in
  let era := y' / 400 in
  let yoe := y' - era * 400 in
  let doy := (153 * (if 2 <? m then m - 3 else m + 9) + 2) / 5 + d - 1 in
  let doe := yoe * 365 + yoe / 4 - yoe / 100 + doy in
  era * 146097 + doe - 719468.

(** The civil date [(y, m, d)] of a day count. *)
Definition civil_from_days (days : Z) : Z * Z * Z :=
  let z := days + 719468 in
  let era := z / 146097 in
  let doe := z - era * 146097 in
  let yoe := (doe - doe / 1460 + doe / 36524 - doe / 146096) / 365 in
  let doy := doe - (365 * yoe + yoe / 4 - yoe / 100) in
  let mp := (5 * doy + 2) / 153 in
  let d := doy - (153 * mp + 2) / 5 + 1 in
  let m := if mp <? 10 then mp + 3 else mp - 9 in
  let y := yoe + era * 400 in
  (if m <=? 2 then y + 1 else y, m, d).

Definition parse_date (cs : list ascii) : option Z :=
  match cs with
  | [y1; y2; y3; y4; h1; m1; m2; h2; d1; d2] =>
      if Ascii.eqb h1 "-" && Ascii.eqb h2 "-" then
        yh ← num2 y1 y2; yl ← num2 y3 y4; m ← num2 m1 m2; d ← num2 d1 d2;
        let y := 100 * yh + yl in
        if (1 <=? y) && (1 <=? m) && (m <=? 12) && (1 <=? d)
           && (d <=? days_in_month y m)
        then Some (days_from_civil y m d * us_per_day)
        else None
      else None
  | _ => None
  end.

Definition parse_clock (cs : list ascii) : option Z :=
  match cs with
  | [h1; h2; c1; m1; m2; c2; s1; s2] =>
      if Ascii.eqb c1 ":" && Ascii.eqb c2 ":" then
        h ← num2 h1 h2; m ← num2 m1 m2; s ← num2 s1 s2;
        if (h <? 24) && (m <? 60) && (s <? 60)
        then Some ((h * 3600 + m * 60 + s) * us_per_second)
        else None
      else None
  | _ => None
  end.

Definition parse_offset (cs : list ascii) : option (option Z) :=
  match cs with
  | [] => Some None
  | [sg; h1; h2; c; m1; m2] =>
      if Ascii.eqb c ":" then
        h ← num2 h1 h2; m ← num2 m1 m2;
        if (h <? 24) && (m <? 60) then
          let off := (h * 3600 + m * 60) * us_per_second in
          if Ascii.eqb sg "+" then Some (Some off)
          else if Ascii.eqb sg "-" then Some (Some (- off))
          else None
        else None
      else None
  | _ => None
  end.

Definition iso_parse (s : string) : option datetime :=
  let cs := list_ascii_of_string s in
  date ← parse_date (take 10 cs);
  match drop 10 cs with
  | [] => Some {| dt_wall := date; dt_utcoffset := None |}
  | _ :: rest =>
      time ← parse_clock (take 8 rest);
      off ← parse_offset (drop 8 rest);
      Some {| dt_wall := date + time; dt_utcoffset := off |}
  end.

Definition digit_char (n : Z) : ascii := ascii_of_N (Z.to_N (48 + n mod 10)).

Definition pad2 (n : Z) : string :=
  String (digit_char (n / 10)) (String (digit_char n) "").

Definition pad4 (n : Z) : string := pad2 (n / 100) +:+ pad2 (n mod 100).

Definition pad6 (n : Z) : string :=
  pad2 (n / 10000) +:+ pad2 (n / 100 mod 100) +:+ pad2 (n mod 100).

(** [HH:MM:SS] and, when not zero, [.ffffff], of a microsecond count
    below one day. *)
Definition format_clock (us : Z) (always_seconds : bool) : string :=
  let secs := us / us_per_second in
  let frac := us mod us_per_second in
  pad2 (secs / 3600) +:+ ":" +:+ pad2 (secs / 60 mod 60)
  +:+ (if always_seconds || negb (secs mod 60 =? 0) || negb (frac =? 0)
       then ":" +:+ pad2 (secs mod 60) else "")
  +:+ (if frac =? 0 then "" else "." +:+ pad6 frac).

Definition iso_format (d : datetime) : string :=
  let '(y, m, dd) := civil_from_days (dt_wall d / us_per_day) in
  pad4 y +:+ "-" +:+ pad2 m +:+ "-" +:+ pad2 dd +:+ "T"
  +:+ format_clock (dt_wall d mod us_per_day) true
  +:+ match dt_utcoffset d with
      | None => ""
      | Some off =>
          (if off <? 0 then "-" else "+") +:+ format_clock (Z.abs off) false
      end.

End Iso.

(** ** Notions the specification uses

    The string the specification describes for the parser: only a final
    [Z] is rewritten to [+00:00]. *)
Fixpoint rewrite_trailing_Z (s : string) : string :=
  match s with
  | EmptyString => EmptyString
  | String c EmptyString =>
      if Ascii.eqb c "Z" then "+00:00" else String c EmptyString
  | String c rest => String c (rewrite_trailing_Z rest)
  end.

(** No [Z] occurs in [s] before its last character. *)
Fixpoint Z_only_trailing (s : string) : bool :=
  match s with
  | EmptyString => true
  | String c EmptyString => true
  | String c rest => negb (Ascii.eqb c "Z") && Z_only_trailing rest
  end.

(** [r] is the maximum of [l] under the datetime order: [None] for the
    empty list, else a member that no member exceeds. *)
Definition is_maximum_of (l : list datetime) (r : option datetime) : Prop :=
  match r with
  | None => l = []
  | Some m => m ∈ l ∧ ∀ t, t ∈ l → dt_gt t m = Ok false
  end.

Definition aware (d : datetime) : bool :=
  match dt_utcoffset d with Some _ => true | None => false end.

(** All aware or all naive: any two members can be compared. *)
Definition comparable (l : list datetime) : Prop :=
  Forall (fun t => aware t = true) l ∨ Forall (fun t => aware t = false) l.

(** A history of record calls only. *)
Definition records (calls : list (Z * option datetime)) : list op :=
  map (fun c => Record_entry c.1 c.2) calls.

(** The timestamps passed by the calls of a history that carried one. *)
Definition timestamps (history : list op) : list datetime :=
  (timed_calls history).*2.

(** Arrival instants (clock readings) of the timed calls that lie less
    than 24 hours before [clock]. *)
Definition arrivals_within (clock : Z) (history : list op) : list Z :=
  filter (fun c => clock - window < c) (timed_calls history).*1.

(** The same count with the boundary the specification words: a timed
    call whose arrival instant is not older than 24 hours, an arrival
    exactly 24 hours before [clock] included. *)
Definition arrivals_not_older (clock : Z) (history : list op) : list Z :=
  filter (fun c => clock - window ≤ c) (timed_calls history).*1.

(** The window buffer holds at most [total_entries] entries. *)
Definition buffer_bounded (m : MetricsTracker) : Prop :=
  Z.of_nat (length (_entries_buffer m)) ≤ total_entries m.

(** ** Further notions over histories *)

(** Clock reading of the most recent [record_entry] call of a history. *)
Definition last_record_clock (history : list op) : option Z :=
  last (op_clock <$> filter is_record history).

(** The timed calls whose timestamp has the awareness of the first
    timestamp ever passed. *)
Definition accepted_calls (history : list op) : list (Z * datetime) :=
  match head (timestamps history) with
  | Some first => filter (fun ct => aware ct.2 = aware first) (timed_calls history)
  | None => []
  end.

(** Clock readings that never go backwards along a history. *)
Definition clock_ordered (history : list op) : Prop :=
  StronglySorted Z.le (op_clock <$> history).

(** Buffer entries in arrival order. *)
Definition by_arrival (a b : datetime) : Prop := timestamp a ≤ timestamp b.

(** The same call with its timestamp, if any, replaced by [f] of it. *)
Definition retime (f : datetime -> datetime) (o : op) : op :=
  match o with
  | Record_entry clock ts => Record_entry clock (f <$> ts)
  | Get_metrics clock => Get_metrics clock
  end.

(** Two trackers that a snapshot at clock reading [C] cannot tell apart:
    equal fields, and equal buffers once the entries that snapshot would
    prune are left out. *)
Definition same_view (C : Z) (m1 m2 : MetricsTracker) : Prop :=
  total_entries m1 = total_entries m2
  ∧ last_entry_time m1 = last_entry_time m2
  ∧ last_sync_time m1 = last_sync_time m2
  ∧ filter (fun t => C - window < timestamp t) (_entries_buffer m1)
    = filter (fun t => C - window < timestamp t) (_entries_buffer m2).

(** ** Sequences of uploads through the hook

    The engine pushes records one after the other; each push is a call of
    the patched method, seeing its own clock reading. *)
Record upload := mk_upload {
  up_clock : Z;
  up_ns_format : gmap string value;
  up_entity : string
}.

(** ["created_at"] is missing or holds a [str]: the cases in which the
    hook reaches [record_entry]. *)
Definition recordable_format (ns_format : gmap string value) : bool :=
  match ns_format !! "created_at" with
  | None | Some (VStr _) => true
  | Some _ => false
  end.

Definition recordable (u : upload) : bool :=
  recordable_format (up_ns_format u).

Definition run_uploads (fromisoformat : string -> option datetime)
    {NightscoutApi Response : Type}
    (original_upload_entry :
       NightscoutApi -> gmap string value -> string -> outcome Response)
    (self : NightscoutApi) (uploads : list upload) (w : World) : World :=
  fold_left
    (fun w u =>
       (patched_upload_entry fromisoformat NightscoutApi Response
          original_upload_entry (up_clock u) self (up_ns_format u)
          (up_entity u) w).2)
    uploads w.

(** ** Sync supervisor *)

Inductive level := INFO | WARNING | ERROR.

#[export] Instance level_eq_dec : EqDecision level.
Proof. solve_decision. Defined.

(** What the background thread does that can be seen from outside: the
    lines it logs and the call of the engine's entry point. *)
Inductive event :=
| Logged (lv : level) (msg : string)
| Main_called (args : list string).

(** How [tconnectsync.main(args)] ends: it returns; it raises an
    [Exception] whose [str()] is [msg]; or it raises outside the
    [Exception] hierarchy ([SystemExit], [KeyboardInterrupt]). *)
Inductive main_outcome :=
| Returns
| Raises (msg : string)
| Exits.

(** How the thread's target ends: normally, or by the exception it let
    through. *)
Inductive thread_outcome := Finished | Propagated.

(** Truth value of [os.environ.get(key)]: set, and not the empty string. *)
Definition truthy (v : option string) : bool :=
  match v with
  | Some (String _ _) => true
  | _ => false
  end.

(** [run_tconnectsync()], in the environment [environ] and with [main]
    telling how [tconnectsync.main] ends on given arguments. *)
Definition run_tconnectsync (environ : gmap string string)
    (main : list string -> main_outcome) : thread_outcome * list event :=
  let trace := [Logged INFO "Starting tconnectsync background loop..."] in
  let trace :=
    if negb (truthy (environ !! "TCONNECT_EMAIL"))
       || negb (truthy (environ !! "TCONNECT_PASSWORD"))
    then trace ++ [Logged WARNING
           "TCONNECT_EMAIL or TCONNECT_PASSWORD not set. Waiting for configuration..."]
    else trace in
  let args := ["--auto-update"; "--check-login"] in
  let args :=
    if truthy (environ !! "TCONNECT_REGION")
    then args ++ ["--region"; default "" (environ !! "TCONNECT_REGION")]
    else args in
  let trace := trace ++ [Main_called args] in
  match main args with
  | Returns => (Finished, trace)
  | Raises msg =>
      (Finished,
       trace ++ [Logged ERROR ("tconnectsync crashed: " +:+ msg);
                 Logged INFO "tconnectsync thread exited."])
  | Exits => (Propagated, trace)
  end.

(** The arguments of the calls of the engine recorded in a trace. *)
Definition main_calls (trace : list event) : list (list string) :=
  omap (fun e => match e with Main_called args => Some args | _ => None end)
    trace.

(** The lines of a given level recorded in a trace. *)
Definition logged_at (lv : level) (trace : list event) : list string :=
  omap (fun e => match e with
                 | Logged lv' msg => if decide (lv' = lv) then Some msg else None
                 | _ => None
                 end) trace.

(** * Properties *)

(** ** Single calls *)

Lemma record_entry_total clock ts m :
  total_entries (record_entry clock ts m).2 = total_entries m + 1.
Proof.
  unfold record_entry. destruct ts as [ts|]; [|reflexivity].
  cbn. destruct (last_entry_time m) as [last|]; [|reflexivity].
  destruct (dt_gt ts last) as [[]|]; reflexivity.
Qed.

Lemma record_entry_buffer clock ts m :
  _entries_buffer (record_entry clock ts m).2 = _entries_buffer m
  ∨ _entries_buffer (record_entry clock ts m).2 = _entries_buffer m ++ [now_utc clock].
Proof.
  unfold record_entry. destruct ts as [ts|]; [|by left].
  cbn. destruct (last_entry_time m) as [last|]; [|by right].
  destruct (dt_gt ts last) as [[]|]; cbn; auto.
Qed.

Lemma record_entry_untimed clock m :
  record_entry clock None m =
  (Ok tt, set_last_sync (Some (now_utc clock)) (set_total (total_entries m + 1) m)).
Proof. reflexivity. Qed.

Lemma timestamp_now_utc clock : timestamp (now_utc clock) = clock.
Proof. unfold timestamp. cbn. lia. Qed.

Lemma get_metrics_state isoformat clock m :
  (get_metrics isoformat clock m).2 =
  set_buffer (filter (fun t => clock - window < timestamp t) (_entries_buffer m)) m.
Proof. unfold get_metrics. cbn [snd]. by rewrite timestamp_now_utc. Qed.

Lemma get_metrics_window isoformat clock m :
  entriesLast24Hours (get_metrics isoformat clock m).1 =
  Z.of_nat (length (_entries_buffer (get_metrics isoformat clock m).2)).
Proof. reflexivity. Qed.

Lemma get_metrics_total isoformat clock m :
  totalEntries (get_metrics isoformat clock m).1 = total_entries m.
Proof. reflexivity. Qed.

Lemma step_total isoformat o m :
  total_entries (step isoformat o m) =
  total_entries m + (if is_record o then 1 else 0).
Proof.
  destruct o as [clock ts|clock]; cbn [step is_record].
  - apply record_entry_total.
  - rewrite get_metrics_state. cbn. lia.
Qed.

(** ** Histories *)

Lemma run_snoc isoformat h o m :
  run isoformat (h ++ [o]) m = step isoformat o (run isoformat h m).
Proof. unfold run. by rewrite fold_left_app. Qed.

Lemma run_app isoformat h1 h2 m :
  run isoformat (h1 ++ h2) m = run isoformat h2 (run isoformat h1 m).
Proof. unfold run. by rewrite fold_left_app. Qed.

Lemma run_total isoformat h m :
  total_entries (run isoformat h m) =
  total_entries m + Z.of_nat (length (filter is_record h)).
Proof.
  induction h as [|o h IH] using rev_ind.
  - cbn. lia.
  - rewrite run_snoc, step_total, IH, filter_app, length_app.
    rewrite filter_cons, filter_nil.
    destruct (is_record o); cbn; case_decide; try done; cbn; lia.
Qed.

Lemma filter_records calls : filter is_record (records calls) = records calls.
Proof.
  induction calls as [|c calls IH]; [done|].
  unfold records in *. cbn [map]. rewrite filter_cons. cbn [is_record].
  case_decide; [|done]. by rewrite IH.
Qed.

(** C1: after any N calls of [record_entry], whatever timestamps they
    carried, the next [get_metrics] reports [totalEntries] = N; each
    [record_entry] adds exactly one to [total_entries] (also when it
    raises), and no operation lowers it. *)
Theorem C1_total_entries_counts_calls (isoformat : datetime -> string) :
  (∀ calls clock,
     totalEntries (get_metrics isoformat clock
                     (run isoformat (records calls) init)).1
     = Z.of_nat (length calls))
  ∧ (∀ clock ts m,
       total_entries (record_entry clock ts m).2 = total_entries m + 1)
  ∧ (∀ o m, total_entries m ≤ total_entries (step isoformat o m))
  ∧ (∀ history m,
       total_entries (run isoformat history m)
       = total_entries m + Z.of_nat (length (filter is_record history))).
Proof.
  split_and!.
  - intros calls clock. rewrite get_metrics_total, run_total, filter_records.
    unfold records. rewrite length_map. cbn. lia.
  - apply record_entry_total.
  - intros o m. rewrite step_total. destruct (is_record o); lia.
  - apply run_total.
Qed.

(** ** The buffer never outgrows the counter *)

Lemma step_buffer_bounded isoformat o m :
  buffer_bounded m → buffer_bounded (step isoformat o m).
Proof.
  unfold buffer_bounded. intros Hm.
  destruct o as [clock ts|clock]; cbn [step].
  - rewrite record_entry_total.
    destruct (record_entry_buffer clock ts m) as [-> | ->].
    + lia.
    + rewrite length_app. cbn. lia.
  - rewrite get_metrics_state. cbn.
    pose proof (length_filter (fun t => clock - window < timestamp t)
                  (_entries_buffer m)). lia.
Qed.

Lemma run_buffer_bounded isoformat h m :
  buffer_bounded m → buffer_bounded (run isoformat h m).
Proof.
  intros Hm. induction h as [|o h IH] using rev_ind; [done|].
  rewrite run_snoc. by apply step_buffer_bounded.
Qed.

(** C9: in every state reached from the initial tracker the window
    buffer holds at most [total_entries] entries, so [entriesLast24Hours]
    of any snapshot is at most its [totalEntries]; both operations keep
    the bound. *)
Theorem C9_buffer_at_most_total (isoformat : datetime -> string) :
  (∀ history,
     Z.of_nat (length (_entries_buffer (run isoformat history init)))
     ≤ total_entries (run isoformat history init))
  ∧ (∀ history clock,
       let r := (get_metrics isoformat clock (run isoformat history init)).1 in
       entriesLast24Hours r ≤ totalEntries r)
  ∧ (∀ o m,
       Z.of_nat (length (_entries_buffer m)) ≤ total_entries m →
       Z.of_nat (length (_entries_buffer (step isoformat o m)))
       ≤ total_entries (step isoformat o m)).
Proof.
  assert (Hinit : buffer_bounded init) by (unfold buffer_bounded; cbn; lia).
  split_and!.
  - intros history. by apply (run_buffer_bounded isoformat history init).
  - intros history clock.
    pose proof (run_buffer_bounded isoformat (history ++ [Get_metrics clock])
                  init Hinit) as H.
    rewrite run_snoc in H. exact H.
  - intros o m. apply step_buffer_bounded.
Qed.

(** ** What a snapshot leaves alone *)

(** C10: [get_metrics] leaves [total_entries], [last_entry_time] and
    [last_sync_time] as they were; it only replaces the window buffer, by
    a subsequence of the entries it held before the call. *)
Theorem C10_get_metrics_frame (isoformat : datetime -> string) clock m :
  let m' := (get_metrics isoformat clock m).2 in
  total_entries m' = total_entries m
  ∧ last_entry_time m' = last_entry_time m
  ∧ last_sync_time m' = last_sync_time m
  ∧ _entries_buffer m' `sublist_of` _entries_buffer m
  ∧ (length (_entries_buffer m') ≤ length (_entries_buffer m))%nat.
Proof.
  cbn zeta. rewrite get_metrics_state. cbn.
  split_and!; try reflexivity.
  - apply sublist_filter.
  - apply length_filter.
Qed.

(** ** The health query on a fresh tracker *)

Lemma run_get_metrics_init isoformat clocks :
  run isoformat (map Get_metrics clocks) init = init.
Proof.
  induction clocks as [|c clocks IH] using rev_ind; [done|].
  rewrite map_app. cbn [map]. rewrite run_snoc, IH. reflexivity.
Qed.

(** C8: while no [record_entry] call has been made (whatever number of
    snapshots were taken), [/health/data] reports [totalEntries] = 0,
    [lastEntryTime] = null, [entriesLast24Hours] = 0 and [lastSyncTime] =
    null; in every state its [recentEntries] is the empty list. *)
Theorem C8_health_data_at_startup (isoformat : datetime -> string) :
  (∀ clocks clock,
     health_metrics
       (health_data isoformat clock
          (run isoformat (map Get_metrics clocks) init)).1
     = {| totalEntries := 0; lastEntryTime := None;
          entriesLast24Hours := 0; lastSyncTime := None |})
  ∧ (∀ clock m, recentEntries (health_data isoformat clock m).1 = []).
Proof.
  split.
  - intros clocks clock. rewrite run_get_metrics_init. reflexivity.
  - intros clock m. reflexivity.
Qed.

(** ** Aged-out entries *)

Lemma step_buffer_elem isoformat o m e :
  e ∈ _entries_buffer (step isoformat o m) →
  e ∈ _entries_buffer m ∨ e = now_utc (op_clock o).
Proof.
  destruct o as [clock ts|clock]; cbn [step op_clock].
  - destruct (record_entry_buffer clock ts m) as [-> | ->]; [by left|].
    rewrite elem_of_app, list_elem_of_singleton. tauto.
  - rewrite get_metrics_state. cbn. rewrite list_elem_of_filter. tauto.
Qed.

Lemma run_buffer_elem isoformat h m e :
  e ∈ _entries_buffer (run isoformat h m) →
  e ∈ _entries_buffer m ∨ ∃ o, o ∈ h ∧ e = now_utc (op_clock o).
Proof.
  induction h as [|o h IH] using rev_ind; [by left|].
  rewrite run_snoc. intros He.
  apply step_buffer_elem in He as [He | ->].
  - destruct (IH He) as [? | (o' & Ho' & ->)]; [by left|].
    right. exists o'. split; [|done]. apply elem_of_app. by left.
  - right. exists o. split; [|done]. apply elem_of_app. right.
    by apply list_elem_of_singleton.
Qed.



(** ** The newest entry time *)

Lemma dt_gt_comparable a b : aware a = aware b → ∃ r, dt_gt a b = Ok r.
Proof.
  unfold aware, dt_gt.
  destruct (dt_utcoffset a), (dt_utcoffset b); intros H; try discriminate; eauto.
Qed.

Lemma dt_gt_irrefl a : dt_gt a a = Ok false.
Proof.
  unfold dt_gt. destruct (dt_utcoffset a); f_equal; apply Z.ltb_irrefl.
Qed.

Lemma dt_gt_le_trans t a ts :
  dt_gt t a = Ok false → dt_gt ts a = Ok true → dt_gt t ts = Ok false.
Proof.
  unfold dt_gt.
  destruct (dt_utcoffset t), (dt_utcoffset a), (dt_utcoffset ts);
    intros H1 H2; try discriminate; f_equal;
    injection H1 as H1; injection H2 as H2; lia.
Qed.

Lemma record_entry_last clock ts m :
  last_entry_time (record_entry clock ts m).2 =
  match ts, last_entry_time m with
  | None, last => last
  | Some ts, None => Some ts
  | Some ts, Some last =>
      match dt_gt ts last with
      | Ok true => Some ts
      | _ => Some last
      end
  end.
Proof.
  unfold record_entry. destruct ts as [ts|]; [|reflexivity].
  cbn. destruct (last_entry_time m) as [last|] eqn:E; [|reflexivity].
  destruct (dt_gt ts last) as [[]|]; cbn; congruence.
Qed.

Lemma step_last isoformat o m :
  last_entry_time (step isoformat o m) =
  match o with
  | Record_entry clock ts => last_entry_time (record_entry clock ts m).2
  | Get_metrics _ => last_entry_time m
  end.
Proof.
  destruct o as [clock ts|clock]; [reflexivity|].
  cbn [step]. by rewrite get_metrics_state.
Qed.

Lemma timed_calls_snoc h o :
  timed_calls (h ++ [o]) =
  timed_calls h ++
  match o with
  | Record_entry clock (Some ts) => [(clock, ts)]
  | _ => []
  end.
Proof.
  unfold timed_calls. rewrite omap_app. f_equal.
  destruct o as [clock [ts|]|clock]; reflexivity.
Qed.

Lemma timestamps_snoc h o :
  timestamps (h ++ [o]) =
  timestamps h ++
  match o with
  | Record_entry _ (Some ts) => [ts]
  | _ => []
  end.
Proof.
  unfold timestamps. rewrite timed_calls_snoc, fmap_app. f_equal.
  destruct o as [clock [ts|]|clock]; reflexivity.
Qed.

Lemma comparable_app_l l1 l2 : comparable (l1 ++ l2) → comparable l1.
Proof.
  intros [H | H]; apply Forall_app in H as [H _]; [by left | by right].
Qed.

Lemma comparable_elem l a b :
  comparable l → a ∈ l → b ∈ l → aware a = aware b.
Proof.
  intros [H | H] Ha Hb; rewrite Forall_forall in H;
    rewrite (H a Ha), (H b Hb); reflexivity.
Qed.

Lemma run_last_maximum isoformat h :
  comparable (timestamps h) →
  is_maximum_of (timestamps h) (last_entry_time (run isoformat h init)).
Proof.
  induction h as [|o h IH] using rev_ind; [done|].
  rewrite timestamps_snoc, run_snoc, step_last. intros Hc.
  specialize (IH (comparable_app_l _ _ Hc)).
  destruct o as [clock [ts|]|clock].
  - rewrite record_entry_last.
    destruct (last_entry_time (run isoformat h init)) as [last|]; cbn in IH.
    + destruct IH as [Hin Hmax].
      destruct (dt_gt_comparable ts last) as [r Hr].
      { apply (comparable_elem _ _ _ Hc); apply elem_of_app; [right | left];
          [|done]. by apply list_elem_of_singleton. }
      rewrite Hr. destruct r; cbn.
      * split.
        { apply elem_of_app. right. by apply list_elem_of_singleton. }
        intros t [Ht | Ht%list_elem_of_singleton]%elem_of_app.
        -- eapply dt_gt_le_trans; eauto.
        -- subst t. apply dt_gt_irrefl.
      * split.
        { apply elem_of_app. by left. }
        intros t [Ht | Ht%list_elem_of_singleton]%elem_of_app; [auto|].
        by subst t.
    + rewrite IH. cbn. split.
      { by apply list_elem_of_singleton. }
      intros t ->%list_elem_of_singleton. apply dt_gt_irrefl.
  - rewrite record_entry_last, app_nil_r. exact IH.
  - rewrite app_nil_r. exact IH.
Qed.

Lemma record_entry_last_advances clock ts m a :
  last_entry_time m = Some a →
  ∃ b, last_entry_time (record_entry clock ts m).2 = Some b
       ∧ (b = a ∨ dt_gt b a = Ok true).
Proof.
  intros Ha. rewrite record_entry_last, Ha.
  destruct ts as [ts|]; [|eauto].
  destruct (dt_gt ts a) as [[]|] eqn:E; eauto.
Qed.

(** C5, as the code has it: when the timestamps passed so far can be
    compared with one another (all timezone-aware or all naive), after any
    history [last_entry_time] is their maximum, or null if no call
    carried one; and, with no condition, a [record_entry] call leaves a
    set [last_entry_time] unchanged or replaces it by a greater value. *)
Theorem C5_last_entry_time_is_maximum (isoformat : datetime -> string)
    (history : list op) :
  comparable (timestamps history) →
  is_maximum_of (timestamps history)
    (last_entry_time (run isoformat history init))
  ∧ (∀ clock ts m a,
       last_entry_time m = Some a →
       ∃ b, last_entry_time (record_entry clock ts m).2 = Some b
            ∧ (b = a ∨ dt_gt b a = Ok true)).
Proof.
  intros Hc. split.
  - by apply run_last_maximum.
  - apply record_entry_last_advances.
Qed.

Lemma C5_witness :
  let t1 := {| dt_wall := 1704067200000000; dt_utcoffset := Some 0 |} in
  let t2 := {| dt_wall := 1704153600000000; dt_utcoffset := Some 3600000000 |} in
  let history :=
    [Record_entry 10 (Some t2); Record_entry 20 None; Record_entry 30 (Some t1)] in
  comparable (timestamps history)
  ∧ is_maximum_of (timestamps history)
      (last_entry_time (run Iso.iso_format history init))
  ∧ last_entry_time (run Iso.iso_format history init) = Some t2.
Proof.
  cbn zeta.
  assert (Hc : comparable (timestamps
    [Record_entry 10
       (Some {| dt_wall := 1704153600000000; dt_utcoffset := Some 3600000000 |});
     Record_entry 20 None;
     Record_entry 30
       (Some {| dt_wall := 1704067200000000; dt_utcoffset := Some 0 |})])).
  { left. repeat constructor. }
  split; [exact Hc|]. split; [|reflexivity].
  exact (proj1 (C5_last_entry_time_is_maximum Iso.iso_format _ Hc)).
Defined.

(** C5 as worded fails when an aware and a naive timestamp meet: the
    comparison raises, [last_entry_time] keeps the first value, and the
    later, larger timestamp is never taken. *)
Lemma C5_counterexample :
  let t_aware := {| dt_wall := 1704067200000000; dt_utcoffset := Some 0 |} in
  let t_naive := {| dt_wall := 1735689600000000; dt_utcoffset := None |} in
  let history := records [(10, Some t_aware); (20, Some t_naive)] in
  Iso.iso_parse "2024-01-01T00:00:00+00:00" = Some t_aware
  ∧ Iso.iso_parse "2025-01-01T00:00:00" = Some t_naive
  ∧ timestamps history = [t_aware; t_naive]
  ∧ last_entry_time (run Iso.iso_format history init) = Some t_aware
  ∧ dt_gt t_naive t_aware = Raise TypeError
  ∧ ¬ is_maximum_of (timestamps history)
        (last_entry_time (run Iso.iso_format history init)).
Proof.
  cbn zeta. split_and!; try reflexivity.
  intros [_ Hmax]. cbn in Hmax.
  specialize (Hmax {| dt_wall := 1735689600000000; dt_utcoffset := None |}).
  assert (Hin : {| dt_wall := 1735689600000000; dt_utcoffset := None |}
                ∈ [ {| dt_wall := 1704067200000000; dt_utcoffset := Some 0 |};
                    {| dt_wall := 1735689600000000; dt_utcoffset := None |} ]).
  { apply list_elem_of_further, list_elem_of_here. }
  specialize (Hmax Hin). discriminate Hmax.
Qed.

(** ** The 24-hour window *)

Lemma record_entry_buffer_timed clock ts m :
  (∀ last, last_entry_time m = Some last → aware ts = aware last) →
  _entries_buffer (record_entry clock (Some ts) m).2
  = _entries_buffer m ++ [now_utc clock].
Proof.
  intros Hc. unfold record_entry. cbn.
  destruct (last_entry_time m) as [last|]; [|reflexivity].
  destruct (dt_gt_comparable ts last (Hc last eq_refl)) as [r ->].
  by destruct r.
Qed.

Lemma filter_window_now (C c : Z) :
  filter (fun t => C - window < timestamp t) [now_utc c]
  = now_utc <$> filter (fun c => C - window < c) [c].
Proof.
  rewrite !filter_cons, !filter_nil, timestamp_now_utc.
  by case_decide.
Qed.

Lemma run_buffer_window isoformat h C :
  Forall (fun o => op_clock o ≤ C) h →
  comparable (timestamps h) →
  filter (fun t => C - window < timestamp t)
    (_entries_buffer (run isoformat h init))
  = now_utc <$> arrivals_within C h.
Proof.
  unfold arrivals_within.
  induction h as [|o h IH] using rev_ind; [done|].
  intros [Hh Ho]%Forall_app Hc.
  rewrite Forall_singleton in Ho.
  pose proof (run_last_maximum isoformat h) as Hmax.
  rewrite timestamps_snoc in Hc.
  specialize (IH Hh (comparable_app_l _ _ Hc)).
  specialize (Hmax (comparable_app_l _ _ Hc)).
  rewrite run_snoc, timed_calls_snoc, fmap_app, filter_app, fmap_app, <- IH.
  destruct o as [clock [ts|]|clock]; cbn [step op_clock] in *.
  - rewrite record_entry_buffer_timed.
    + rewrite filter_app. f_equal. apply filter_window_now.
    + intros last Hlast. rewrite Hlast in Hmax. destruct Hmax as [Hin _].
      apply (comparable_elem _ _ _ Hc); apply elem_of_app; [right | by left].
      by apply list_elem_of_singleton.
  - by rewrite app_nil_r.
  - rewrite get_metrics_state, app_nil_r. cbn.
    apply list_filter_filter_l. intros x. lia.
Qed.

(** On exact instants: the snapshot keeps the entries that arrived less
    than 24 hours before it, and counts the timed calls that did. *)
Lemma run_window_exact (isoformat : datetime -> string)
    (history : list op) (clock : Z) :
  Forall (fun o => op_clock o ≤ clock) history →
  comparable (timestamps history) →
  let m := run isoformat history init in
  let snap := get_metrics isoformat clock m in
  (∀ e, e ∈ _entries_buffer (snap.2)
        ↔ e ∈ _entries_buffer m ∧ clock - window < timestamp e)
  ∧ _entries_buffer (snap.2) `sublist_of` _entries_buffer m
  ∧ entriesLast24Hours (snap.1)
    = Z.of_nat (length (arrivals_within clock history)).
Proof.
  intros Hclock Hc m snap. split_and!.
  - intros e. unfold snap. rewrite get_metrics_state. cbn.
    rewrite list_elem_of_filter. tauto.
  - unfold snap. rewrite get_metrics_state. cbn. apply sublist_filter.
  - unfold snap. rewrite get_metrics_window, get_metrics_state. cbn.
    unfold m. rewrite run_buffer_window by done. by rewrite length_fmap.
Qed.



(** ** The interception hook *)

Section HookFacts.

Context (fromisoformat : string -> option datetime).
Context {NightscoutApi Response : Type}.
Context (original_upload_entry :
           NightscoutApi -> gmap string value -> string -> outcome Response).

Lemma extract_absent (ns_format : gmap string value) w :
  ns_format !! "created_at" = None →
  extract_entry_time fromisoformat ns_format w = (Ok None, w).
Proof. unfold extract_entry_time. by intros ->. Qed.

Lemma extract_str (ns_format : gmap string value) s w :
  ns_format !! "created_at" = Some (VStr s) →
  extract_entry_time fromisoformat ns_format w
  = (Ok (fromisoformat (str_replace "Z" "+00:00" s)), w).
Proof.
  unfold extract_entry_time. intros ->.
  unfold try_except, mbind, stmt_bind, bind, lift_outcome,
    datetime_fromisoformat. cbn.
  by destruct (fromisoformat _).
Qed.

Lemma extract_not_str (ns_format : gmap string value) v w :
  ns_format !! "created_at" = Some v →
  (∀ s, v ≠ VStr s) →
  ∃ e, e ≠ ValueError
       ∧ extract_entry_time fromisoformat ns_format w = (Raise e, w).
Proof.
  unfold extract_entry_time. intros -> Hv.
  unfold try_except, mbind, stmt_bind, bind, lift_outcome. 
  destruct v; cbn; try (by eexists; split; [|reflexivity]).
  by destruct (Hv s).
Qed.

(** Whatever the guarded body does, the statement after the [try] runs
    and its outcome is the outcome of the whole. *)
Lemma fail_soft (body : Stmt unit) (msg : string) (r : outcome Response) w :
  ((try_except body is_Exception (fun e => logger_error msg e);;
    lift_outcome r) w).1 = r.
Proof.
  unfold try_except, mbind, stmt_bind, bind, lift_outcome, is_Exception,
    logger_error.
  destruct (body w) as [[[]|e] w']; reflexivity.
Qed.

Lemma patched_upload_entry_world clock self ns_format entity w entry_time :
  extract_entry_time fromisoformat ns_format w = (Ok entry_time, w) →
  metrics (patched_upload_entry fromisoformat NightscoutApi Response
             original_upload_entry clock self ns_format entity w).2
  = (record_entry clock entry_time (metrics w)).2.
Proof.
  intros He.
  unfold patched_upload_entry, try_except, mbind, stmt_bind, bind,
    lift_outcome, is_Exception, logger_error, logger_info,
    metrics_record_entry.
  rewrite He.
  destruct (record_entry clock entry_time (metrics w)) as [[[]|e] m'];
    reflexivity.
Qed.

End HookFacts.

(** C3: whatever the record holds and whatever the guarded
    extraction-and-recording step does, [patched_upload_entry] ends by
    calling the original [upload_entry] on the same arguments, and the
    outcome of the hook is the outcome of that call; the same holds with
    any statement in place of the guarded step. *)
Theorem C3_hook_always_delegates (fromisoformat : string -> option datetime)
    (NightscoutApi Response : Type)
    (original_upload_entry :
       NightscoutApi -> gmap string value -> string -> outcome Response)
    (clock : Z) (self : NightscoutApi) (ns_format : gmap string value)
    (entity : string) (w : World) :
  (patched_upload_entry fromisoformat NightscoutApi Response
     original_upload_entry clock self ns_format entity w).1
  = original_upload_entry self ns_format entity
  ∧ ∀ (body : Stmt unit) w0,
      ((try_except body is_Exception
          (fun e => logger_error "Error tracking metrics: " e);;
        lift_outcome (original_upload_entry self ns_format entity)) w0).1
      = original_upload_entry self ns_format entity.
Proof.
  split.
  - unfold patched_upload_entry. apply fail_soft.
  - intros body w0. apply fail_soft.
Qed.

(** C4, as the code has it: when ["created_at"] is absent or holds a
    string, the hook calls [record_entry] exactly once, with the parsed
    timestamp when parsing succeeds and with none otherwise; with none,
    [total_entries] goes up by one while [last_entry_time] and the window
    buffer stay as they were. *)
Theorem C4_absent_or_string_is_recorded
    (fromisoformat : string -> option datetime)
    (NightscoutApi Response : Type)
    (original_upload_entry :
       NightscoutApi -> gmap string value -> string -> outcome Response)
    (clock : Z) (self : NightscoutApi) (ns_format : gmap string value)
    (entity : string) (w : World) :
  (ns_format !! "created_at" = None
   ∨ ∃ s, ns_format !! "created_at" = Some (VStr s)) →
  let entry_time :=
    match ns_format !! "created_at" with
    | Some (VStr s) => fromisoformat (str_replace "Z" "+00:00" s)
    | _ => None
    end in
  let w' := (patched_upload_entry fromisoformat NightscoutApi Response
               original_upload_entry clock self ns_format entity w).2 in
  metrics w' = (record_entry clock entry_time (metrics w)).2
  ∧ (entry_time = None →
     total_entries (metrics w') = total_entries (metrics w) + 1
     ∧ last_entry_time (metrics w') = last_entry_time (metrics w)
     ∧ _entries_buffer (metrics w') = _entries_buffer (metrics w)).
Proof.
  intros Hcreated entry_time w'.
  assert (Hw : metrics w' = (record_entry clock entry_time (metrics w)).2).
  { unfold w', entry_time. apply patched_upload_entry_world.
    destruct Hcreated as [Hk | [s Hk]]; rewrite Hk.
    - by apply extract_absent.
    - by apply extract_str. }
  split; [exact Hw|].
  intros Hnone. rewrite Hw, Hnone, record_entry_untimed. cbn. done.
Qed.

Lemma C4_witness :
  let ns_format : gmap string value := {[ "created_at" := VStr "not-a-date" ]} in
  let w := {| metrics := init; logger := [] |} in
  let w' := (patched_upload_entry Iso.iso_parse unit unit
               (fun _ _ _ => Ok tt) 1704067200000000 tt ns_format
               "treatments" w).2 in
  (ns_format !! "created_at" = None
   ∨ ∃ s, ns_format !! "created_at" = Some (VStr s))
  ∧ Iso.iso_parse (str_replace "Z" "+00:00" "not-a-date") = None
  ∧ total_entries (metrics w') = 1
  ∧ last_entry_time (metrics w') = None
  ∧ _entries_buffer (metrics w') = [].
Proof.
  cbn zeta.
  assert (Hk : ({[ "created_at" := VStr "not-a-date" ]} : gmap string value)
                 !! "created_at" = None
               ∨ ∃ s, ({[ "created_at" := VStr "not-a-date" ]}
                         : gmap string value) !! "created_at"
                      = Some (VStr s)).
  { right. exists "not-a-date". reflexivity. }
  split; [exact Hk|]. split; [reflexivity|].
  destruct (C4_absent_or_string_is_recorded Iso.iso_parse unit unit
              (fun _ _ _ => Ok tt) 1704067200000000 tt
              {[ "created_at" := VStr "not-a-date" ]} "treatments"
              {| metrics := init; logger := [] |} Hk) as [_ H].
  apply H. reflexivity.
Defined.

(** C4 as worded fails for a value that is not a string: [replace]
    raises before [record_entry] is reached, the hook logs the error, and
    nothing is counted. *)
Lemma C4_counterexample :
  let ns_format : gmap string value := {[ "created_at" := VNone ]} in
  let w := {| metrics := init; logger := [] |} in
  let r := patched_upload_entry Iso.iso_parse unit unit
             (fun _ _ _ => Ok tt) 1704067200000000 tt ns_format
             "treatments" w in
  r.1 = Ok tt
  ∧ metrics (r.2) = init
  ∧ total_entries (metrics (r.2)) ≠ total_entries (metrics w) + 1
  ∧ logger (r.2) = [Error "Error tracking metrics: " AttributeError].
Proof.
  cbn zeta. split_and!; try reflexivity. vm_compute. discriminate.
Qed.

(** ** The string handed to the parser *)

Lemma str_replace_only_trailing s :
  Z_only_trailing s = true →
  str_replace "Z" "+00:00" s = rewrite_trailing_Z s.
Proof.
  induction s as [|c rest IH]; [done|].
  destruct rest as [|c' rest'].
  - intros _. cbn. by destruct (Ascii.eqb c "Z").
  - intros H. cbn [Z_only_trailing] in H.
    apply andb_true_iff in H as [Hc Hrest].
    cbn [str_replace rewrite_trailing_Z].
    apply negb_true_iff in Hc. rewrite Hc. f_equal. by apply IH.
Qed.

(** C7, as the code has it: for a string in ["created_at"] the hook
    parses, as ISO-8601, the string with every [Z] replaced by [+00:00];
    when the string has no [Z] before its last character this is the
    string with only a trailing [Z] rewritten, so the result is the
    ISO-8601 parse of that string. *)
Theorem C7_extraction_rewrites_every_Z
    (fromisoformat : string -> option datetime)
    (ns_format : gmap string value) (s : string) (w : World) :
  ns_format !! "created_at" = Some (VStr s) →
  extract_entry_time fromisoformat ns_format w
  = (Ok (fromisoformat (str_replace "Z" "+00:00" s)), w)
  ∧ (Z_only_trailing s = true →
     extract_entry_time fromisoformat ns_format w
     = (Ok (fromisoformat (rewrite_trailing_Z s)), w)).
Proof.
  intros Hk. split.
  - by apply extract_str.
  - intros Hz. rewrite <- (str_replace_only_trailing s Hz).
    by apply extract_str.
Qed.

Lemma C7_witness :
  let s := "2024-01-01T00:00:00Z" in
  let ns_format : gmap string value := {[ "created_at" := VStr s ]} in
  let w := {| metrics := init; logger := [] |} in
  ns_format !! "created_at" = Some (VStr s)
  ∧ Z_only_trailing s = true
  ∧ rewrite_trailing_Z s = "2024-01-01T00:00:00+00:00"
  ∧ extract_entry_time Iso.iso_parse ns_format w
    = (Ok (Some {| dt_wall := 1704067200000000; dt_utcoffset := Some 0 |}), w).
Proof.
  cbn zeta.
  assert (Hk : ({[ "created_at" := VStr "2024-01-01T00:00:00Z" ]}
                  : gmap string value) !! "created_at"
               = Some (VStr "2024-01-01T00:00:00Z")) by reflexivity.
  assert (Hz : Z_only_trailing "2024-01-01T00:00:00Z" = true) by reflexivity.
  split; [exact Hk|]. split; [exact Hz|]. split; [reflexivity|].
  destruct (C7_extraction_rewrites_every_Z Iso.iso_parse
              {[ "created_at" := VStr "2024-01-01T00:00:00Z" ]}
              "2024-01-01T00:00:00Z"
              {| metrics := init; logger := [] |} Hk) as [_ H].
  rewrite (H Hz). reflexivity.
Defined.

(** C7 as worded fails for a [Z] that is not the last character: the
    string has no trailing [Z], yet the hook alters it, and the parse of
    the altered string differs from the parse of the string itself. *)
Lemma C7_counterexample :
  let s := "2024-01-01Z10:00:00" in
  let ns_format : gmap string value := {[ "created_at" := VStr s ]} in
  let w := {| metrics := init; logger := [] |} in
  rewrite_trailing_Z s = s
  ∧ str_replace "Z" "+00:00" s = "2024-01-01+00:0010:00:00"
  ∧ Iso.iso_parse (rewrite_trailing_Z s)
    = Some {| dt_wall := 1704103200000000; dt_utcoffset := None |}
  ∧ extract_entry_time Iso.iso_parse ns_format w = (Ok None, w)
  ∧ extract_entry_time Iso.iso_parse ns_format w
    ≠ (Ok (Iso.iso_parse (rewrite_trailing_Z s)), w).
Proof.
  cbn zeta. split_and!; try reflexivity. vm_compute. discriminate.
Qed.

Lemma C9_witness :
  let m := run Iso.iso_format
             [Record_entry 10 (Some (now_utc 5)); Record_entry 20 None] init in
  Z.of_nat (length (_entries_buffer m)) ≤ total_entries m
  ∧ Z.of_nat (length (_entries_buffer (step Iso.iso_format (Get_metrics 30) m)))
    ≤ total_entries (step Iso.iso_format (Get_metrics 30) m).
Proof.
  cbn zeta.
  assert (H : Z.of_nat (length (_entries_buffer
                (run Iso.iso_format
                   [Record_entry 10 (Some (now_utc 5)); Record_entry 20 None]
                   init)))
              ≤ total_entries
                  (run Iso.iso_format
                     [Record_entry 10 (Some (now_utc 5)); Record_entry 20 None]
                     init)).
  { vm_compute. discriminate. }
  split; [exact H|].
  exact (proj2 (proj2 (C9_buffer_at_most_total Iso.iso_format))
           (Get_metrics 30) _ H).
Defined.

(** * Further properties of the tracker *)

Lemma record_entry_last_sync clock ts m :
  last_sync_time (record_entry clock ts m).2 = Some (now_utc clock).
Proof.
  unfold record_entry. destruct ts as [ts|]; [|reflexivity].
  cbn. destruct (last_entry_time m) as [last|]; [|reflexivity].
  destruct (dt_gt ts last) as [[]|]; reflexivity.
Qed.

(** X1: [last_sync_time] is the clock reading of the most recent
    [record_entry] call, timed or not and whether or not it raised, and
    null before the first one; snapshots do not touch it, and report it
    as [lastSyncTime] in ISO format. *)
Theorem X1_last_sync_time_is_latest_record (isoformat : datetime -> string)
    (history : list op) :
  last_sync_time (run isoformat history init)
  = now_utc <$> last_record_clock history
  ∧ ∀ clock,
      lastSyncTime (get_metrics isoformat clock (run isoformat history init)).1
      = (fun c => isoformat (now_utc c)) <$> last_record_clock history.
Proof.
  assert (H : last_sync_time (run isoformat history init)
              = now_utc <$> last_record_clock history);
    [|split; [exact H|]; intros clock; cbn; rewrite H;
      by destruct (last_record_clock history)].
  unfold last_record_clock.
  induction history as [|o h IH] using rev_ind; [done|].
  rewrite run_snoc, filter_app, fmap_app, filter_cons, filter_nil.
  destruct o as [clock ts|clock]; cbn [step is_record].
  - rewrite decide_True by done. cbn [fmap list_fmap op_clock].
    rewrite last_snoc. apply record_entry_last_sync.
  - rewrite decide_False by (cbn; tauto). cbn [fmap list_fmap].
    rewrite app_nil_r, get_metrics_state. exact IH.
Qed.

Lemma dt_gt_cases a b :
  (aware a = aware b ∧ ∃ r, dt_gt a b = Ok r)
  ∨ (aware a ≠ aware b ∧ dt_gt a b = Raise TypeError).
Proof.
  unfold aware, dt_gt.
  destruct (dt_utcoffset a), (dt_utcoffset b); eauto.
Qed.

Lemma record_entry_mixed clock t m last :
  last_entry_time m = Some last →
  aware t ≠ aware last →
  record_entry clock (Some t) m
  = (Raise TypeError,
     set_last_sync (Some (now_utc clock)) (set_total (total_entries m + 1) m)).
Proof.
  intros Hlast Hne. unfold record_entry. cbn. rewrite Hlast.
  destruct (dt_gt_cases t last) as [[Heq _] | [_ ->]]; done.
Qed.

Lemma record_entry_raise_inv clock ts m e :
  (record_entry clock ts m).1 = Raise e →
  e = TypeError
  ∧ ∃ t last, ts = Some t ∧ last_entry_time m = Some last
              ∧ aware t ≠ aware last.
Proof.
  unfold record_entry. destruct ts as [t|]; cbn; [|discriminate].
  destruct (last_entry_time m) as [last|] eqn:Hlast; cbn; [|discriminate].
  destruct (dt_gt_cases t last) as [[Heq [r Hr]] | [Hne Hr]]; rewrite Hr.
  - by destruct r.
  - intros [= <-]. split; [done|]. by exists t, last.
Qed.

(** X2: the only exception [record_entry] raises is [TypeError], and it
    raises it exactly when a timestamp is passed, [last_entry_time] is set,
    and one of the two is naive while the other is aware; a call that
    raises has changed [total_entries] and [last_sync_time] and nothing
    else. *)
Theorem X2_record_entry_raises_on_mixed_awareness clock ts m e :
  ((record_entry clock ts m).1 = Raise e
   ↔ e = TypeError
     ∧ ∃ t last, ts = Some t ∧ last_entry_time m = Some last
                 ∧ aware t ≠ aware last)
  ∧ ((record_entry clock ts m).1 = Raise e →
     (record_entry clock ts m).2
     = set_last_sync (Some (now_utc clock))
         (set_total (total_entries m + 1) m)).
Proof.
  split; [split|].
  - apply record_entry_raise_inv.
  - intros (-> & t & last & -> & Hlast & Hne).
    by rewrite (record_entry_mixed clock t m last).
  - intros H. apply record_entry_raise_inv in H
      as (_ & t & last & -> & Hlast & Hne).
    by rewrite (record_entry_mixed clock t m last).
Qed.

Lemma X2_witness :
  let m := (record_entry 10 (Some (now_utc 5)) init).2 in
  let naive := {| dt_wall := 7; dt_utcoffset := None |} in
  last_entry_time m = Some (now_utc 5)
  ∧ aware naive ≠ aware (now_utc 5)
  ∧ (record_entry 20 (Some naive) m).1 = Raise TypeError
  ∧ total_entries (record_entry 20 (Some naive) m).2 = 2
  ∧ _entries_buffer (record_entry 20 (Some naive) m).2 = [now_utc 10].
Proof.
  cbn zeta.
  assert (Hne : aware {| dt_wall := 7; dt_utcoffset := None |}
                ≠ aware (now_utc 5)) by (cbn; discriminate).
  assert (H : (record_entry 20 (Some {| dt_wall := 7; dt_utcoffset := None |})
                 (record_entry 10 (Some (now_utc 5)) init).2).1
              = Raise TypeError).
  { apply (proj1 (X2_record_entry_raises_on_mixed_awareness 20 _ _ _)).
    split; [reflexivity|].
    exists {| dt_wall := 7; dt_utcoffset := None |}, (now_utc 5).
    split; [reflexivity|]. split; [reflexivity|]. exact Hne. }
  split; [reflexivity|]. split; [exact Hne|]. split; [exact H|].
  rewrite (proj2 (X2_record_entry_raises_on_mixed_awareness 20 _ _ _) H).
  split; reflexivity.
Defined.

Lemma run_last_provenance isoformat h :
  match last_entry_time (run isoformat h init) with
  | None => timestamps h = []
  | Some a => a ∈ timestamps h
  end.
Proof.
  induction h as [|o h IH] using rev_ind; [done|].
  rewrite run_snoc, step_last, timestamps_snoc.
  destruct o as [clock [ts|]|clock].
  - rewrite record_entry_last.
    destruct (last_entry_time (run isoformat h init)) as [last|].
    + destruct (dt_gt ts last) as [[]|]; rewrite elem_of_app;
        rewrite ?list_elem_of_singleton; auto.
    + rewrite elem_of_app, list_elem_of_singleton. auto.
  - rewrite record_entry_last, app_nil_r. exact IH.
  - rewrite app_nil_r. exact IH.
Qed.

(** X3: whatever the calls were (also with naive and aware timestamps
    mixed), [last_entry_time] is null exactly when no call has carried a
    timestamp, and otherwise it is one of the timestamps passed. *)
Theorem X3_last_entry_time_is_a_passed_timestamp
    (isoformat : datetime -> string) (history : list op) :
  (last_entry_time (run isoformat history init) = None
   ↔ timestamps history = [])
  ∧ (∀ a, last_entry_time (run isoformat history init) = Some a →
          a ∈ timestamps history).
Proof.
  pose proof (run_last_provenance isoformat history) as H.
  destruct (last_entry_time (run isoformat history init)) as [a|].
  - split.
    + split; [discriminate|]. intros Hnil. rewrite Hnil in H.
      by apply elem_of_nil in H.
    + by intros a' [= <-].
  - split; [done|discriminate].
Qed.

Lemma X3_witness :
  let history := [Record_entry 10 (Some (now_utc 5)); Record_entry 20 None] in
  last_entry_time (run Iso.iso_format history init) = Some (now_utc 5)
  ∧ now_utc 5 ∈ timestamps history.
Proof.
  cbn zeta.
  assert (H : last_entry_time
                (run Iso.iso_format
                   [Record_entry 10 (Some (now_utc 5)); Record_entry 20 None]
                   init) = Some (now_utc 5)) by reflexivity.
  split; [exact H|].
  exact (proj2 (X3_last_entry_time_is_a_passed_timestamp Iso.iso_format _)
           _ H).
Defined.

Lemma record_entry_buffer_cases clock ts m :
  (_entries_buffer (record_entry clock ts m).2 = _entries_buffer m)
  ∨ (∃ t, ts = Some t
          ∧ _entries_buffer (record_entry clock ts m).2
            = _entries_buffer m ++ [now_utc clock]).
Proof.
  unfold record_entry. destruct ts as [t|]; [|by left].
  cbn. destruct (last_entry_time m) as [last|].
  - destruct (dt_gt t last) as [[]|]; cbn; eauto.
  - right. eauto.
Qed.

(** X4: in every reachable state the window buffer is a subsequence of
    the arrival instants of the calls that carried a timestamp, in call
    order; so [entriesLast24Hours] never exceeds the number of timed
    calls. *)
Theorem X4_buffer_holds_only_timed_arrivals (isoformat : datetime -> string)
    (history : list op) :
  _entries_buffer (run isoformat history init)
    `sublist_of` (now_utc <$> (timed_calls history).*1)
  ∧ ∀ clock,
      entriesLast24Hours
        (get_metrics isoformat clock (run isoformat history init)).1
      ≤ Z.of_nat (length (timed_calls history)).
Proof.
  assert (Hsub : _entries_buffer (run isoformat history init)
                   `sublist_of` (now_utc <$> (timed_calls history).*1)).
  { induction history as [|o h IH] using rev_ind; [done|].
    rewrite run_snoc, timed_calls_snoc, !fmap_app.
    destruct o as [clock ts|clock]; cbn [step].
    - destruct (record_entry_buffer_cases clock ts (run isoformat h init))
        as [-> | (t & -> & ->)].
      + by apply sublist_inserts_r.
      + by apply sublist_app.
    - rewrite get_metrics_state. cbn. rewrite app_nil_r.
      etrans; [apply sublist_filter|done]. }
  split; [exact Hsub|].
  intros clock. rewrite get_metrics_window, get_metrics_state. cbn.
  apply sublist_length in Hsub. rewrite !length_fmap in Hsub.
  pose proof (length_filter (fun t => clock - window < timestamp t)
                (_entries_buffer (run isoformat history init))).
  lia.
Qed.

Lemma run_last_awareness isoformat h :
  aware <$> last_entry_time (run isoformat h init)
  = aware <$> head (timestamps h).
Proof.
  induction h as [|o h IH] using rev_ind; [done|].
  rewrite run_snoc, step_last, timestamps_snoc, head_app.
  pose proof (run_last_provenance isoformat h) as Hprov.
  destruct o as [clock [ts|]|clock].
  - rewrite record_entry_last.
    destruct (last_entry_time (run isoformat h init)) as [last|].
    + destruct (head (timestamps h)) as [first|]; [|done].
      destruct (dt_gt_cases ts last) as [[Heq [r ->]] | [_ ->]]; [|done].
      destruct r; [|done]. cbn in *. congruence.
    + by rewrite Hprov.
  - rewrite record_entry_last. by destruct (head (timestamps h)).
  - by destruct (head (timestamps h)).
Qed.

(** X5: the first timestamp ever passed fixes the kind of
    [last_entry_time]: after any history it is aware exactly when that
    first timestamp was aware; and from then on a timed [record_entry]
    call raises [TypeError] exactly when its timestamp is of the other
    kind. *)
Theorem X5_first_timestamp_fixes_awareness (isoformat : datetime -> string)
    (history : list op) :
  aware <$> last_entry_time (run isoformat history init)
  = aware <$> head (timestamps history)
  ∧ ∀ clock ts,
      (record_entry clock (Some ts) (run isoformat history init)).1
      = Raise TypeError
      ↔ ∃ first, head (timestamps history) = Some first
                 ∧ aware ts ≠ aware first.
Proof.
  pose proof (run_last_awareness isoformat history) as Haw.
  split; [exact Haw|]. intros clock ts. split.
  - intros H. apply record_entry_raise_inv in H
      as (_ & t & last & [= <-] & Hlast & Hne).
    rewrite Hlast in Haw.
    destruct (head (timestamps history)) as [first|]; [|discriminate].
    exists first. split; [done|]. cbn in Haw. congruence.
  - intros (first & Hfirst & Hne). rewrite Hfirst in Haw.
    destruct (last_entry_time (run isoformat history init)) as [last|] eqn:Hl;
      [|discriminate].
    rewrite (record_entry_mixed clock ts _ last Hl); [done|].
    cbn in Haw. congruence.
Qed.

Lemma accepted_calls_snoc h o :
  accepted_calls (h ++ [o])
  = accepted_calls h ++
    match o with
    | Record_entry clock (Some ts) =>
        if decide (aware ts = default (aware ts) (aware <$> head (timestamps h)))
        then [(clock, ts)] else []
    | _ => []
    end.
Proof.
  unfold accepted_calls. rewrite timestamps_snoc, head_app.
  destruct (head (timestamps h)) as [first|] eqn:Hhead.
  - rewrite timed_calls_snoc, filter_app. f_equal.
    destruct o as [clock [ts|]|clock]; done.
  - assert (Hnil : timed_calls h = []).
    { unfold timestamps in Hhead.
      destruct (timed_calls h); [done|discriminate]. }
    rewrite timed_calls_snoc, Hnil.
    destruct o as [clock [ts|]|clock]; done.
Qed.

Lemma record_entry_buffer_accepted clock ts m :
  _entries_buffer (record_entry clock (Some ts) m).2
  = _entries_buffer m ++
    (if decide (aware ts = default (aware ts) (aware <$> last_entry_time m))
     then [now_utc clock] else []).
Proof.
  unfold record_entry. cbn.
  destruct (last_entry_time m) as [last|]; cbn.
  - destruct (dt_gt_cases ts last) as [[Heq [r ->]] | [Hne ->]].
    + rewrite decide_True by done. by destruct r.
    + rewrite decide_False by done. cbn. by rewrite app_nil_r.
  - by rewrite decide_True.
Qed.

Lemma step_buffer_accepted isoformat h clock ts :
  _entries_buffer (run isoformat (h ++ [Record_entry clock (Some ts)]) init)
  = _entries_buffer (run isoformat h init) ++
    (now_utc <$>
       (if decide (aware ts
                   = default (aware ts) (aware <$> head (timestamps h)))
        then [(clock, ts)] else []).*1).
Proof.
  rewrite run_snoc. cbn [step].
  rewrite record_entry_buffer_accepted, run_last_awareness.
  by case_decide.
Qed.

Lemma run_records_buffer_accepted isoformat calls :
  _entries_buffer (run isoformat (records calls) init)
  = now_utc <$> (accepted_calls (records calls)).*1.
Proof.
  induction calls as [|[clock ts] calls IH] using rev_ind; [done|].
  unfold records in *. rewrite map_app. cbn [map fst snd].
  rewrite accepted_calls_snoc, !fmap_app, <- IH.
  destruct ts as [ts|].
  - apply step_buffer_accepted.
  - rewrite run_snoc. cbn. by rewrite app_nil_r.
Qed.

Lemma run_buffer_window_accepted isoformat h C :
  Forall (fun o => op_clock o ≤ C) h →
  filter (fun t => C - window < timestamp t)
    (_entries_buffer (run isoformat h init))
  = now_utc <$> filter (fun c => C - window < c) (accepted_calls h).*1.
Proof.
  induction h as [|o h IH] using rev_ind; [done|].
  intros [Hh Ho]%Forall_app. rewrite Forall_singleton in Ho.
  specialize (IH Hh).
  rewrite accepted_calls_snoc, fmap_app, filter_app, fmap_app, <- IH.
  destruct o as [clock [ts|]|clock]; cbn [op_clock] in *.
  - rewrite step_buffer_accepted, filter_app. f_equal.
    case_decide; [|done]. apply filter_window_now.
  - rewrite run_snoc. cbn. by rewrite app_nil_r.
  - rewrite run_snoc. cbn [step]. rewrite get_metrics_state, app_nil_r. cbn.
    apply list_filter_filter_l. intros x. lia.
Qed.



(** ** Order of the buffer *)

Lemma filter_sorted_suffix (K : Z) (l : list datetime) :
  StronglySorted by_arrival l →
  filter (fun t => K < timestamp t) l `suffix_of` l.
Proof.
  induction l as [|x l IH]; [done|].
  intros [Hx Hl]%StronglySorted_cons.
  destruct (decide (K < timestamp x)) as [Hk | Hk].
  - assert (Hall : filter (fun t => K < timestamp t) (x :: l) = x :: l).
    { rewrite filter_cons_True by done. f_equal.
      clear IH Hl. induction l as [|y l IHl]; [done|].
      apply Forall_cons in Hx as [Hy Hx].
      rewrite filter_cons_True by (unfold by_arrival in Hy; lia).
      f_equal. by apply IHl. }
    by rewrite Hall.
  - rewrite filter_cons_False by done. apply suffix_cons_r. by apply IH.
Qed.

Lemma run_buffer_sorted isoformat h :
  clock_ordered h →
  StronglySorted by_arrival (_entries_buffer (run isoformat h init)).
Proof.
  unfold clock_ordered.
  induction h as [|o h IH] using rev_ind; [constructor|].
  rewrite fmap_app. intros (Hle & Hh & _)%StronglySorted_app.
  specialize (IH Hh). rewrite run_snoc.
  destruct o as [clock ts|clock]; cbn [step].
  - destruct (record_entry_buffer_cases clock ts (run isoformat h init))
      as [-> | (t & -> & ->)]; [done|].
    apply StronglySorted_app_2; [|done|repeat constructor].
    intros e e' He ->%list_elem_of_singleton.
    apply run_buffer_elem in He as [He | (o & Ho & ->)].
    { by apply elem_of_nil in He. }
    unfold by_arrival. rewrite !timestamp_now_utc.
    apply Hle.
    + by apply list_elem_of_fmap_2.
    + by apply list_elem_of_singleton.
  - rewrite get_metrics_state. cbn.
    destruct (filter_sorted_suffix (clock - window) _ IH) as [k Hk].
    rewrite Hk in IH. by apply StronglySorted_app_1_r in IH.
Qed.

(** X7: when the clock readings of the calls never go backwards, the
    window buffer is always in arrival order, and what a snapshot prunes
    is a leading run of it: the buffer it leaves is a suffix of the one it
    found. *)
Theorem X7_pruning_drops_the_oldest_prefix (isoformat : datetime -> string)
    (history : list op) (clock : Z) :
  clock_ordered history →
  let m := run isoformat history init in
  StronglySorted by_arrival (_entries_buffer m)
  ∧ _entries_buffer (get_metrics isoformat clock m).2
      `suffix_of` _entries_buffer m.
Proof.
  intros Hord m.
  pose proof (run_buffer_sorted isoformat history Hord) as Hs.
  split; [exact Hs|].
  rewrite get_metrics_state. cbn. by apply filter_sorted_suffix.
Qed.

Lemma X7_witness :
  let t := {| dt_wall := 0; dt_utcoffset := Some 0 |} in
  let history :=
    [Record_entry 1000000 (Some t); Record_entry 2000000 None;
     Record_entry 86401000000 (Some t); Record_entry 86402000000 (Some t)] in
  let m := run Iso.iso_format history init in
  clock_ordered history
  ∧ _entries_buffer m
    = [now_utc 1000000; now_utc 86401000000; now_utc 86402000000]
  ∧ _entries_buffer (get_metrics Iso.iso_format 86403000000 m).2
      `suffix_of` _entries_buffer m.
Proof.
  cbn zeta.
  assert (Hord : clock_ordered
    [Record_entry 1000000 (Some {| dt_wall := 0; dt_utcoffset := Some 0 |});
     Record_entry 2000000 None;
     Record_entry 86401000000
       (Some {| dt_wall := 0; dt_utcoffset := Some 0 |});
     Record_entry 86402000000
       (Some {| dt_wall := 0; dt_utcoffset := Some 0 |})]).
  { unfold clock_ordered. cbn. repeat constructor; lia. }
  split; [exact Hord|]. split; [reflexivity|].
  exact (proj2 (X7_pruning_drops_the_oldest_prefix Iso.iso_format _
                  86403000000 Hord)).
Defined.

(** ** Snapshots do not disturb later snapshots *)

Lemma filter_window_comm (C c : Z) (l : list datetime) :
  filter (fun t => C - window < timestamp t)
    (filter (fun t => c - window < timestamp t) l)
  = filter (fun t => c - window < timestamp t)
      (filter (fun t => C - window < timestamp t) l).
Proof.
  rewrite !list_filter_filter. apply list_filter_iff. intros x. tauto.
Qed.

Lemma step_same_view isoformat C o m1 m2 :
  same_view C m1 m2 →
  same_view C (step isoformat o m1) (step isoformat o m2).
Proof.
  intros (Ht & Hl & Hs & Hb). unfold same_view.
  destruct o as [clock ts|clock]; cbn [step].
  - rewrite !record_entry_total, !record_entry_last, !record_entry_last_sync,
      Ht, Hl.
    split_and!; try done.
    destruct ts as [ts|].
    + rewrite !record_entry_buffer_accepted, !filter_app, Hb, Hl. done.
    + exact Hb.
  - rewrite !get_metrics_state. cbn. split_and!; try done.
    rewrite (filter_window_comm C clock (_entries_buffer m1)),
      (filter_window_comm C clock (_entries_buffer m2)).
    by rewrite Hb.
Qed.

Lemma run_same_view isoformat C h m1 m2 :
  same_view C m1 m2 →
  same_view C (run isoformat h m1) (run isoformat h m2).
Proof.
  intros Hv. induction h as [|o h IH] using rev_ind; [done|].
  rewrite !run_snoc. by apply step_same_view.
Qed.

Lemma get_metrics_same_view isoformat C m1 m2 :
  same_view C m1 m2 →
  (get_metrics isoformat C m1).1 = (get_metrics isoformat C m2).1.
Proof.
  intros (Ht & Hl & Hs & Hb).
  unfold get_metrics. cbn [fst set_buffer total_entries last_entry_time
    last_sync_time _entries_buffer].
  rewrite timestamp_now_utc. by rewrite Ht, Hl, Hs, Hb.
Qed.

Lemma health_data_fst isoformat clock m :
  (health_data isoformat clock m).1
  = {| connectorName := "Tandem Connector";
       status := "running";
       health_metrics := (get_metrics isoformat clock m).1;
       recentEntries := [];
       configuration :=
         {| syncIntervalMinutes := 1;
            connectSource := "TConnectSync (Python)" |} |}.
Proof. reflexivity. Qed.

Lemma health_data_snd isoformat clock m :
  (health_data isoformat clock m).2 = (get_metrics isoformat clock m).2.
Proof. reflexivity. Qed.

(** X8: a [/health/data] query is read-only as far as later queries can
    tell: whatever calls follow it, a later query (at a clock reading not
    before its own) answers exactly what it would have answered had the
    first query never been made. *)
Theorem X8_health_query_does_not_disturb_later_ones
    (isoformat : datetime -> string) (m : MetricsTracker) (clock : Z)
    (later : list op) (clock' : Z) :
  clock ≤ clock' →
  (health_data isoformat clock'
     (run isoformat later (health_data isoformat clock m).2)).1
  = (health_data isoformat clock' (run isoformat later m)).1.
Proof.
  intros Hle. rewrite !health_data_fst, health_data_snd. f_equal.
  apply get_metrics_same_view, run_same_view.
  rewrite get_metrics_state. unfold same_view. cbn. split_and!; try done.
  apply list_filter_filter_l. intros x. lia.
Qed.

Lemma X8_witness :
  let t := {| dt_wall := 0; dt_utcoffset := Some 0 |} in
  let m := run Iso.iso_format
             [Record_entry 1000000 (Some t); Record_entry 86401000000 (Some t)]
             init in
  let later := [Record_entry 86403000000 (Some t); Get_metrics 86404000000] in
  86402000000 ≤ 86405000000
  ∧ (health_data Iso.iso_format 86405000000
       (run Iso.iso_format later
          (health_data Iso.iso_format 86402000000 m).2)).1
    = (health_data Iso.iso_format 86405000000
         (run Iso.iso_format later m)).1.
Proof.
  cbn zeta.
  assert (Hle : 86402000000 ≤ 86405000000) by lia.
  split; [exact Hle|].
  exact (X8_health_query_does_not_disturb_later_ones Iso.iso_format _
           86402000000 _ 86405000000 Hle).
Defined.

(** * Further properties of the hook *)

Section HookWorld.

Context (fromisoformat : string -> option datetime).
Context {NightscoutApi Response : Type}.
Context (original_upload_entry :
           NightscoutApi -> gmap string value -> string -> outcome Response).

Lemma hook_world_recorded clock self ns_format entity w entry_time :
  extract_entry_time fromisoformat ns_format w = (Ok entry_time, w) →
  (patched_upload_entry fromisoformat NightscoutApi Response
     original_upload_entry clock self ns_format entity w).2
  = {| metrics := (record_entry clock entry_time (metrics w)).2;
       logger := logger w ++
         [match (record_entry clock entry_time (metrics w)).1 with
          | Ok _ => Info ("Intercepted upload for " +:+ entity)
          | Raise e => Error "Error tracking metrics: " e
          end] |}.
Proof.
  intros He.
  unfold patched_upload_entry, try_except, mbind, stmt_bind, bind,
    lift_outcome, is_Exception, logger_error, logger_info,
    metrics_record_entry.
  rewrite He.
  destruct (record_entry clock entry_time (metrics w)) as [[[]|e] m'];
    reflexivity.
Qed.

Lemma hook_world_skipped clock self ns_format entity w e :
  extract_entry_time fromisoformat ns_format w = (Raise e, w) →
  (patched_upload_entry fromisoformat NightscoutApi Response
     original_upload_entry clock self ns_format entity w).2
  = {| metrics := metrics w;
       logger := logger w ++ [Error "Error tracking metrics: " e] |}.
Proof.
  intros He.
  unfold patched_upload_entry, try_except, mbind, stmt_bind, bind,
    lift_outcome, is_Exception, logger_error.
  rewrite He. reflexivity.
Qed.

Lemma extract_cases (ns_format : gmap string value) w :
  (recordable_format ns_format = true
   ∧ ∃ t, extract_entry_time fromisoformat ns_format w = (Ok t, w))
  ∨ (recordable_format ns_format = false
     ∧ ∃ e, e ≠ ValueError
            ∧ extract_entry_time fromisoformat ns_format w = (Raise e, w)).
Proof.
  unfold recordable_format.
  destruct (ns_format !! "created_at") as [v|] eqn:Hk.
  - destruct v as [ | b | n | s | d ].
    4: { left. split; [done|]. eexists. by apply extract_str. }
    all: right; split; [done|];
      apply (extract_not_str fromisoformat ns_format _ w Hk); done.
  - left. split; [done|]. eexists. by apply extract_absent.
Qed.

End HookWorld.

Lemma record_entry_raise_TypeError clock ts m e :
  (record_entry clock ts m).1 = Raise e → e = TypeError.
Proof.
  intros H. by apply record_entry_raise_inv in H as [-> _].
Qed.

Lemma hook_world_not_str (fromisoformat : string -> option datetime)
    {NightscoutApi Response : Type}
    (original_upload_entry :
       NightscoutApi -> gmap string value -> string -> outcome Response)
    (clock : Z) (self : NightscoutApi) (ns_format : gmap string value)
    (entity : string) (w : World) (v : value) :
  ns_format !! "created_at" = Some v →
  (∀ s, v ≠ VStr s) →
  (patched_upload_entry fromisoformat NightscoutApi Response
     original_upload_entry clock self ns_format entity w).2
  = {| metrics := metrics w;
       logger := logger w ++
         [Error "Error tracking metrics: "
            match v with VDatetime _ => TypeError | _ => AttributeError end]
    |}.
Proof.
  intros Hk Hv. apply hook_world_skipped.
  unfold extract_entry_time. rewrite Hk.
  destruct v; try reflexivity. by destruct (Hv s).
Qed.

(** X9: every call of the hook adds exactly one record to the log and
    keeps the earlier ones, and the inputs fix which.  A ["created_at"]
    that is not a string gives the error line ([TypeError] for a
    datetime, [AttributeError] otherwise).  A parsed timestamp whose kind
    (aware or naive) differs from that of the tracker's [last_entry_time]
    gives the error line with [TypeError], although the event was counted.
    Every other call gives [Intercepted upload for <entity>]: also a
    missing field and a string that does not parse, whose [ValueError] is
    never logged. *)
Theorem X9_hook_logs_one_line (fromisoformat : string -> option datetime)
    (NightscoutApi Response : Type)
    (original_upload_entry :
       NightscoutApi -> gmap string value -> string -> outcome Response)
    (clock : Z) (self : NightscoutApi) (ns_format : gmap string value)
    (entity : string) (w : World) :
  let w' := (patched_upload_entry fromisoformat NightscoutApi Response
               original_upload_entry clock self ns_format entity w).2 in
  let info := Info ("Intercepted upload for " +:+ entity) in
  let error := Error "Error tracking metrics: " in
  logger w' = logger w ++
    [match ns_format !! "created_at" with
     | None => info
     | Some (VStr s) =>
         match fromisoformat (str_replace "Z" "+00:00" s),
               last_entry_time (metrics w) with
         | Some ts, Some last =>
             if bool_decide (aware ts = aware last) then info
             else error TypeError
         | _, _ => info
         end
     | Some (VDatetime _) => error TypeError
     | Some _ => error AttributeError
     end].
Proof.
  cbn zeta.
  destruct (ns_format !! "created_at") as [v|] eqn:Hk.
  - destruct v as [ | b | n | s | d ].
    4: { rewrite (hook_world_recorded _ _ _ _ _ _ _ _
                    (extract_str fromisoformat ns_format s w Hk)).
         cbn [logger]. do 2 f_equal.
         destruct (fromisoformat (str_replace "Z" "+00:00" s)) as [ts|];
           [|reflexivity].
         destruct (last_entry_time (metrics w)) as [last|] eqn:Hlast.
         - case_bool_decide as Hkind.
           + destruct (record_entry clock (Some ts) (metrics w)).1
               as [[]|e] eqn:Hr; [reflexivity|].
             apply record_entry_raise_inv in Hr
               as (_ & t & last' & [= <-] & Hl & Hne).
             rewrite Hlast in Hl. injection Hl as <-. done.
           + by rewrite (record_entry_mixed clock ts (metrics w) last).
         - unfold record_entry. cbn. by rewrite Hlast. }
    all: rewrite (hook_world_not_str fromisoformat original_upload_entry
                    clock self ns_format entity w _ Hk) by done;
      reflexivity.
  - rewrite (hook_world_recorded _ _ _ _ _ _ _ _
               (extract_absent fromisoformat ns_format w Hk)).
    reflexivity.
Qed.

(** X10: when ["created_at"] holds something that is not a string, the
    hook leaves the tracker exactly as it was (not even [last_sync_time]
    moves) and logs the error: [TypeError] for a datetime, whose [replace]
    rejects string arguments, [AttributeError] for a value with no
    [replace]. *)
Theorem X10_non_string_created_at_is_skipped
    (fromisoformat : string -> option datetime)
    (NightscoutApi Response : Type)
    (original_upload_entry :
       NightscoutApi -> gmap string value -> string -> outcome Response)
    (clock : Z) (self : NightscoutApi) (ns_format : gmap string value)
    (entity : string) (w : World) (v : value) :
  ns_format !! "created_at" = Some v →
  (∀ s, v ≠ VStr s) →
  (patched_upload_entry fromisoformat NightscoutApi Response
     original_upload_entry clock self ns_format entity w).2
  = {| metrics := metrics w;
       logger := logger w ++
         [Error "Error tracking metrics: "
            match v with VDatetime _ => TypeError | _ => AttributeError end]
    |}.
Proof.
  intros Hk Hv. apply hook_world_skipped.
  unfold extract_entry_time. rewrite Hk.
  destruct v; try reflexivity. by destruct (Hv s).
Qed.

Lemma X10_witness :
  let ns_format : gmap string value := {[ "created_at" := VInt 1704067200 ]} in
  let w := {| metrics := init; logger := [] |} in
  (patched_upload_entry Iso.iso_parse unit unit (fun _ _ _ => Ok tt)
     1704067200000000 tt ns_format "treatments" w).2
  = {| metrics := init;
       logger := [Error "Error tracking metrics: " AttributeError] |}.
Proof.
  cbn zeta.
  assert (Hk : ({[ "created_at" := VInt 1704067200 ]} : gmap string value)
                 !! "created_at" = Some (VInt 1704067200)) by reflexivity.
  exact (X10_non_string_created_at_is_skipped Iso.iso_parse unit unit
           (fun _ _ _ => Ok tt) 1704067200000000 tt _ "treatments"
           {| metrics := init; logger := [] |} _ Hk
           (fun s H => eq_ind (VInt 1704067200)
                         (fun v => match v with VInt _ => True | _ => False end)
                         I _ H)).
Defined.

(** X11: a parseable ["created_at"] whose kind (aware or naive) differs
    from that of the tracker's [last_entry_time] is counted in
    [total_entries] and moves [last_sync_time], but is left out of
    [last_entry_time] and of the window, and the hook logs a [TypeError]
    instead of the interception line. *)
Theorem X11_mixed_kind_upload_is_counted_not_windowed
    (fromisoformat : string -> option datetime)
    (NightscoutApi Response : Type)
    (original_upload_entry :
       NightscoutApi -> gmap string value -> string -> outcome Response)
    (clock : Z) (self : NightscoutApi) (ns_format : gmap string value)
    (entity : string) (w : World) (s : string) (ts last : datetime) :
  ns_format !! "created_at" = Some (VStr s) →
  fromisoformat (str_replace "Z" "+00:00" s) = Some ts →
  last_entry_time (metrics w) = Some last →
  aware ts ≠ aware last →
  let w' := (patched_upload_entry fromisoformat NightscoutApi Response
               original_upload_entry clock self ns_format entity w).2 in
  total_entries (metrics w') = total_entries (metrics w) + 1
  ∧ last_sync_time (metrics w') = Some (now_utc clock)
  ∧ last_entry_time (metrics w') = Some last
  ∧ _entries_buffer (metrics w') = _entries_buffer (metrics w)
  ∧ logger w' = logger w ++ [Error "Error tracking metrics: " TypeError].
Proof.
  intros Hk Hp Hlast Hne. cbn zeta.
  rewrite (hook_world_recorded _ _ _ _ _ _ _ _
             (extract_str fromisoformat ns_format s w Hk)), Hp.
  rewrite (record_entry_mixed clock ts (metrics w) last Hlast Hne).
  cbn. by rewrite Hlast.
Qed.

Lemma X11_witness :
  let ns_format : gmap string value :=
    {[ "created_at" := VStr "2025-01-01T00:00:00" ]} in
  let aware_t := {| dt_wall := 1704067200000000; dt_utcoffset := Some 0 |} in
  let w := {| metrics := (record_entry 10 (Some aware_t) init).2;
              logger := [] |} in
  let w' := (patched_upload_entry Iso.iso_parse unit unit
               (fun _ _ _ => Ok tt) 20 tt ns_format "treatments" w).2 in
  total_entries (metrics w') = 2
  ∧ last_entry_time (metrics w') = Some aware_t
  ∧ _entries_buffer (metrics w') = [now_utc 10]
  ∧ logger w' = [Error "Error tracking metrics: " TypeError].
Proof.
  cbn zeta.
  assert (Hk : ({[ "created_at" := VStr "2025-01-01T00:00:00" ]}
                  : gmap string value) !! "created_at"
               = Some (VStr "2025-01-01T00:00:00")) by reflexivity.
  assert (Hp : Iso.iso_parse (str_replace "Z" "+00:00" "2025-01-01T00:00:00")
               = Some {| dt_wall := 1735689600000000; dt_utcoffset := None |})
    by reflexivity.
  assert (Hne : aware {| dt_wall := 1735689600000000; dt_utcoffset := None |}
                ≠ aware {| dt_wall := 1704067200000000;
                           dt_utcoffset := Some 0 |})
    by (cbn; discriminate).
  destruct (X11_mixed_kind_upload_is_counted_not_windowed Iso.iso_parse
              unit unit (fun _ _ _ => Ok tt) 20 tt _ "treatments"
              {| metrics :=
                   (record_entry 10
                      (Some {| dt_wall := 1704067200000000;
                               dt_utcoffset := Some 0 |}) init).2;
                 logger := [] |} _ _ _ Hk Hp eq_refl Hne)
    as (H1 & _ & H3 & H4 & H5).
  split; [rewrite H1; reflexivity|]. split; [exact H3|].
  split; [rewrite H4; reflexivity|]. rewrite H5. reflexivity.
Defined.

Lemma X5_witness :
  let t := {| dt_wall := 0; dt_utcoffset := Some 0 |} in
  let t_naive := {| dt_wall := 5; dt_utcoffset := None |} in
  let history := [Record_entry 10 None; Record_entry 20 (Some t)] in
  head (timestamps history) = Some t
  ∧ (record_entry 30 (Some t_naive) (run Iso.iso_format history init)).1
    = Raise TypeError.
Proof.
  cbn zeta. split; [reflexivity|].
  apply (proj2 (X5_first_timestamp_fixes_awareness Iso.iso_format
                  [Record_entry 10 None;
                   Record_entry 20
                     (Some {| dt_wall := 0; dt_utcoffset := Some 0 |})])).
  exists {| dt_wall := 0; dt_utcoffset := Some 0 |}.
  split; [reflexivity|]. cbn. discriminate.
Defined.

Section Uploads.

Context (fromisoformat : string -> option datetime).
Context {NightscoutApi Response : Type}.
Context (original_upload_entry :
           NightscoutApi -> gmap string value -> string -> outcome Response).

Lemma hook_total clock self ns_format entity w :
  total_entries
    (metrics (patched_upload_entry fromisoformat NightscoutApi Response
                original_upload_entry clock self ns_format entity w).2)
  = total_entries (metrics w)
    + (if recordable_format ns_format then 1 else 0).
Proof.
  destruct (extract_cases fromisoformat ns_format w)
    as [[-> [t Ht]] | [-> (e & He & Hx)]].
  - rewrite (hook_world_recorded _ _ _ _ _ _ _ _ Ht). cbn.
    apply record_entry_total.
  - rewrite (hook_world_skipped _ _ _ _ _ _ _ _ Hx). cbn. lia.
Qed.

Lemma hook_logger_length clock self ns_format entity w :
  length (logger (patched_upload_entry fromisoformat NightscoutApi Response
                    original_upload_entry clock self ns_format entity w).2)
  = S (length (logger w)).
Proof.
  destruct (extract_cases fromisoformat ns_format w)
    as [[_ [t Ht]] | [_ (e & He & Hx)]].
  - rewrite (hook_world_recorded _ _ _ _ _ _ _ _ Ht). cbn.
    rewrite length_app. cbn. lia.
  - rewrite (hook_world_skipped _ _ _ _ _ _ _ _ Hx). cbn.
    rewrite length_app. cbn. lia.
Qed.

Lemma run_uploads_snoc self uploads u w :
  run_uploads fromisoformat original_upload_entry self (uploads ++ [u]) w
  = (patched_upload_entry fromisoformat NightscoutApi Response
       original_upload_entry (up_clock u) self (up_ns_format u) (up_entity u)
       (run_uploads fromisoformat original_upload_entry self uploads w)).2.
Proof. unfold run_uploads. by rewrite fold_left_app. Qed.

End Uploads.

(** X12: after a sequence of uploads through the hook, [total_entries]
    has grown by the number of uploads whose ["created_at"] was missing or
    a string (the others are skipped), and the log has grown by one record
    per upload, whatever the original push returned or raised. *)
Theorem X12_uploads_counted (fromisoformat : string -> option datetime)
    (NightscoutApi Response : Type)
    (original_upload_entry :
       NightscoutApi -> gmap string value -> string -> outcome Response)
    (self : NightscoutApi) (uploads : list upload) (w : World) :
  let w' := run_uploads fromisoformat original_upload_entry self uploads w in
  total_entries (metrics w')
  = total_entries (metrics w) + Z.of_nat (length (filter recordable uploads))
  ∧ length (logger w') = (length (logger w) + length uploads)%nat.
Proof.
  cbn zeta. induction uploads as [|u uploads [IHt IHl]] using rev_ind.
  - cbn. split; lia.
  - rewrite run_uploads_snoc, hook_total, hook_logger_length, IHt, IHl.
    rewrite filter_app, !length_app, filter_cons, filter_nil.
    split; [|cbn; lia].
    unfold recordable in *.
    destruct (recordable_format (up_ns_format u)) eqn:Hu.
    + rewrite decide_True by done. cbn. lia.
    + rewrite decide_False by (cbn; tauto). cbn. lia.
Qed.

(** ** What reaches the parser *)

Lemma chars_append (a b : string) :
  list_ascii_of_string (a +:+ b)
  = list_ascii_of_string a ++ list_ascii_of_string b.
Proof.
  induction a as [|c a IH]; [done|].
  change (String c a +:+ b) with (String c (a +:+ b)).
  cbn [list_ascii_of_string]. by rewrite IH.
Qed.

Lemma str_replace_no_Z s :
  "Z"%char ∉ list_ascii_of_string (str_replace "Z" "+00:00" s).
Proof.
  induction s as [|c s IH]; cbn [str_replace].
  - cbn. apply not_elem_of_nil.
  - destruct (Ascii.eqb c "Z") eqn:Hc.
    + rewrite chars_append, elem_of_app. intros [H | H]; [|done].
      cbn in H.
      repeat (apply elem_of_cons in H as [H | H]; [discriminate|]).
      by apply elem_of_nil in H.
    + cbn. rewrite elem_of_cons. intros [H | H]; [|done].
      subst c. by rewrite Ascii.eqb_refl in Hc.
Qed.

Lemma str_replace_id s :
  "Z"%char ∉ list_ascii_of_string s → str_replace "Z" "+00:00" s = s.
Proof.
  induction s as [|c s IH]; [done|].
  cbn. rewrite not_elem_of_cons. intros [Hc Hs].
  destruct (Ascii.eqb_spec c "Z") as [-> | _]; [done|].
  f_equal. by apply IH.
Qed.

(** X13: the string the hook hands to [fromisoformat] never contains a
    [Z], wherever the [Z]s of ["created_at"] were, and it is the field
    itself when the field has none. *)
Theorem X13_parser_input_has_no_Z (fromisoformat : string -> option datetime)
    (ns_format : gmap string value) (s : string) (w : World) :
  ns_format !! "created_at" = Some (VStr s) →
  ∃ s', extract_entry_time fromisoformat ns_format w
        = (Ok (fromisoformat s'), w)
        ∧ ("Z"%char ∉ list_ascii_of_string s')
        ∧ ("Z"%char ∉ list_ascii_of_string s → s' = s).
Proof.
  intros Hk. exists (str_replace "Z" "+00:00" s). split_and!.
  - by apply extract_str.
  - apply str_replace_no_Z.
  - apply str_replace_id.
Qed.

Lemma X13_witness :
  let ns_format : gmap string value :=
    {[ "created_at" := VStr "2024-01-01Z10:00:00Z" ]} in
  let w := {| metrics := init; logger := [] |} in
  ∃ s', extract_entry_time Iso.iso_parse ns_format w
        = (Ok (Iso.iso_parse s'), w)
        ∧ ("Z"%char ∉ list_ascii_of_string s').
Proof.
  cbn zeta.
  assert (Hk : ({[ "created_at" := VStr "2024-01-01Z10:00:00Z" ]}
                  : gmap string value) !! "created_at"
               = Some (VStr "2024-01-01Z10:00:00Z")) by reflexivity.
  destruct (X13_parser_input_has_no_Z Iso.iso_parse _ _
              {| metrics := init; logger := [] |} Hk) as (s' & H1 & H2 & _).
  exists s'. by split.
Defined.

(** * The sync supervisor *)

Lemma truthy_cases (v : option string) :
  (truthy v = true ∧ ∃ c r, v = Some (String c r))
  ∨ (truthy v = false ∧ (v = None ∨ v = Some "")).
Proof. destruct v as [[|c r]|]; cbn; eauto 6. Qed.

(** X14: in every environment, with or without credentials, the thread
    calls [tconnectsync.main] exactly once.  The arguments are
    [--auto-update --check-login], followed by [--region <value>] exactly
    when [TCONNECT_REGION] is set to a non-empty string (an empty value
    counts as unset). *)
Theorem X14_engine_started_once_with_flags (environ : gmap string string)
    (main : list string -> main_outcome) :
  main_calls (run_tconnectsync environ main).2
  = [ ["--auto-update"; "--check-login"] ++
      match environ !! "TCONNECT_REGION" with
      | Some (String c r) => ["--region"; String c r]
      | _ => []
      end ].
Proof.
  unfold run_tconnectsync.
  generalize (environ !! "TCONNECT_REGION"), (environ !! "TCONNECT_EMAIL"),
    (environ !! "TCONNECT_PASSWORD").
  intros region email password.
  destruct region as [[|c r]|];
    destruct (negb (truthy email) || negb (truthy password));
    cbn; destruct (main _); reflexivity.
Qed.

(** X15: the thread warns about credentials exactly when [TCONNECT_EMAIL]
    or [TCONNECT_PASSWORD] is unset or empty, with one line, and that
    never changes the call of the engine: the arguments it passes do not
    depend on the two variables. *)
Theorem X15_missing_credentials_only_warn (environ : gmap string string)
    (main : list string -> main_outcome) :
  logged_at WARNING (run_tconnectsync environ main).2
  = (if truthy (environ !! "TCONNECT_EMAIL")
        && truthy (environ !! "TCONNECT_PASSWORD")
     then []
     else ["TCONNECT_EMAIL or TCONNECT_PASSWORD not set. Waiting for configuration..."])
  ∧ ∀ email password,
      main_calls
        (run_tconnectsync
           (<["TCONNECT_EMAIL" := email]>
              (<["TCONNECT_PASSWORD" := password]> environ)) main).2
      = main_calls (run_tconnectsync environ main).2.
Proof.
  split.
  - unfold run_tconnectsync.
    generalize (environ !! "TCONNECT_REGION"), (environ !! "TCONNECT_EMAIL"),
      (environ !! "TCONNECT_PASSWORD").
    intros region email password.
    destruct (truthy email), (truthy password), (truthy region);
      cbn; destruct (main _); reflexivity.
  - intros email password.
    unfold run_tconnectsync.
    rewrite lookup_insert_eq.
    rewrite (lookup_insert_ne _ "TCONNECT_EMAIL" "TCONNECT_PASSWORD") by done.
    rewrite lookup_insert_eq.
    rewrite !(lookup_insert_ne _ _ "TCONNECT_REGION") by done.
    generalize (environ !! "TCONNECT_REGION"), (environ !! "TCONNECT_EMAIL"),
      (environ !! "TCONNECT_PASSWORD").
    intros region email0 password0.
    destruct (truthy region),
      (negb (truthy (Some email)) || negb (truthy (Some password))),
      (negb (truthy email0) || negb (truthy password0));
      cbn; destruct (main _); reflexivity.
Qed.

(** X16: how the thread ends.  If the engine returns, nothing more is
    logged.  If it raises an [Exception], the thread logs
    [tconnectsync crashed: <message>] and then
    [tconnectsync thread exited.], and ends normally: the exception does
    not leave the thread and nothing restarts the engine.  An exit
    outside [Exception] ([SystemExit]) is not caught: it leaves the thread
    with neither line logged. *)
Theorem X16_engine_crash_is_logged_not_raised (environ : gmap string string)
    (main : list string -> main_outcome) :
  ∃ args before,
    main_calls (run_tconnectsync environ main).2 = [args]
    ∧ logged_at ERROR before = []
    ∧ run_tconnectsync environ main
      = match main args with
        | Returns => (Finished, before ++ [Main_called args])
        | Raises msg =>
            (Finished,
             before ++ [Main_called args;
                        Logged ERROR ("tconnectsync crashed: " +:+ msg);
                        Logged INFO "tconnectsync thread exited."])
        | Exits => (Propagated, before ++ [Main_called args])
        end.
Proof.
  unfold run_tconnectsync.
  generalize (environ !! "TCONNECT_REGION"), (environ !! "TCONNECT_EMAIL"),
    (environ !! "TCONNECT_PASSWORD").
  intros region email password.
  set (start := Logged INFO "Starting tconnectsync background loop...").
  set (warn := Logged WARNING
    "TCONNECT_EMAIL or TCONNECT_PASSWORD not set. Waiting for configuration...").
  destruct (truthy region);
    destruct (negb (truthy email) || negb (truthy password));
    match goal with
    | |- context [main ?a] => exists a
    end.
  1,3: exists [start; warn].
  3,4: exists [start].
  all: split; [destruct (main _); reflexivity|].
  all: split; [reflexivity|].
  all: destruct (main _); reflexivity.
Qed.

(** * The window follows arrival, not the record's own time *)

Lemma timed_calls_retime f h :
  timed_calls (retime f <$> h) = prod_map id f <$> timed_calls h.
Proof.
  unfold timed_calls. induction h as [|o h IH]; [done|].
  destruct o as [clock [ts|]|clock]; cbn; by rewrite ?IH.
Qed.

Lemma head_timestamps_retime f h :
  (∀ t, aware (f t) = aware t) →
  aware <$> head (timestamps (retime f <$> h))
  = aware <$> head (timestamps h).
Proof.
  intros Hf. unfold timestamps. rewrite timed_calls_retime.
  destruct (timed_calls h) as [|[c t] l]; [done|]. cbn. by rewrite Hf.
Qed.

Lemma run_retime_buffer isoformat f h :
  (∀ t, aware (f t) = aware t) →
  _entries_buffer (run isoformat (retime f <$> h) init)
  = _entries_buffer (run isoformat h init).
Proof.
  intros Hf. induction h as [|o h IH] using rev_ind; [done|].
  rewrite fmap_app. cbn [fmap list_fmap].
  destruct o as [clock [ts|]|clock]; cbn [retime fmap option_fmap option_map].
  - rewrite !step_buffer_accepted, IH, head_timestamps_retime, Hf by done.
    by repeat case_decide.
  - rewrite !run_snoc. cbn. exact IH.
  - rewrite !run_snoc. cbn [step]. rewrite !get_metrics_state. cbn.
    by rewrite IH.
Qed.

(** X17: the window depends on when the calls arrived and on the kind of
    their timestamps, not on the instants the timestamps name: replacing
    every timestamp by another of the same kind (say, one years in the
    past) leaves the buffer, and so every [entriesLast24Hours], as it
    was. *)
Theorem X17_window_ignores_timestamp_values (isoformat : datetime -> string)
    (f : datetime -> datetime) (history : list op) (clock : Z) :
  (∀ t, aware (f t) = aware t) →
  _entries_buffer (run isoformat (retime f <$> history) init)
  = _entries_buffer (run isoformat history init)
  ∧ entriesLast24Hours
      (get_metrics isoformat clock
         (run isoformat (retime f <$> history) init)).1
    = entriesLast24Hours
        (get_metrics isoformat clock (run isoformat history init)).1.
Proof.
  intros Hf.
  pose proof (run_retime_buffer isoformat f history Hf) as Hb.
  split; [exact Hb|].
  rewrite !get_metrics_window, !get_metrics_state. cbn. by rewrite Hb.
Qed.

Lemma X17_witness :
  let ten_years_back (t : datetime) :=
    {| dt_wall := dt_wall t - 315360000000000;
       dt_utcoffset := dt_utcoffset t |} in
  let t := {| dt_wall := 1704067200000000; dt_utcoffset := Some 0 |} in
  let history := [Record_entry 1704067200000000 (Some t);
                  Record_entry 1704067201000000 (Some t)] in
  (∀ t, aware (ten_years_back t) = aware t)
  ∧ entriesLast24Hours
      (get_metrics Iso.iso_format 1704067202000000
         (run Iso.iso_format (retime ten_years_back <$> history) init)).1
    = 2.
Proof.
  cbn zeta.
  assert (Hf : ∀ t, aware {| dt_wall := dt_wall t - 315360000000000;
                             dt_utcoffset := dt_utcoffset t |} = aware t)
    by (intros t; reflexivity).
  split; [exact Hf|].
  rewrite (proj2 (X17_window_ignores_timestamp_values Iso.iso_format _
                    [Record_entry 1704067200000000
                       (Some {| dt_wall := 1704067200000000;
                                dt_utcoffset := Some 0 |});
                     Record_entry 1704067201000000
                       (Some {| dt_wall := 1704067200000000;
                                dt_utcoffset := Some 0 |})]
                    1704067202000000 Hf)).
  reflexivity.
Defined.

(** X18: the hook on a record whose ["created_at"] parses, when the
    tracker has no [last_entry_time] yet or one of the same kind: the
    event is counted, its arrival instant is appended to the window
    buffer, [last_entry_time] becomes the parsed timestamp if that is
    strictly newer (or the first) and stays otherwise, and the
    interception line is logged. *)
Theorem X18_parsed_upload_is_recorded
    (fromisoformat : string -> option datetime)
    (NightscoutApi Response : Type)
    (original_upload_entry :
       NightscoutApi -> gmap string value -> string -> outcome Response)
    (clock : Z) (self : NightscoutApi) (ns_format : gmap string value)
    (entity : string) (w : World) (s : string) (ts : datetime) :
  ns_format !! "created_at" = Some (VStr s) →
  fromisoformat (str_replace "Z" "+00:00" s) = Some ts →
  (∀ last, last_entry_time (metrics w) = Some last → aware ts = aware last) →
  let w' := (patched_upload_entry fromisoformat NightscoutApi Response
               original_upload_entry clock self ns_format entity w).2 in
  total_entries (metrics w') = total_entries (metrics w) + 1
  ∧ last_sync_time (metrics w') = Some (now_utc clock)
  ∧ _entries_buffer (metrics w')
    = _entries_buffer (metrics w) ++ [now_utc clock]
  ∧ last_entry_time (metrics w')
    = match last_entry_time (metrics w) with
      | Some last =>
          match dt_gt ts last with
          | Ok true => Some ts
          | _ => Some last
          end
      | None => Some ts
      end
  ∧ logger w' = logger w ++ [Info ("Intercepted upload for " +:+ entity)].
Proof.
  intros Hk Hp Hkind. cbn zeta.
  rewrite (hook_world_recorded _ _ _ _ _ _ _ _
             (extract_str fromisoformat ns_format s w Hk)), Hp.
  cbn [metrics logger].
  rewrite record_entry_total, record_entry_last_sync,
    (record_entry_buffer_timed clock ts (metrics w) Hkind), record_entry_last.
  split_and!; try done.
  - destruct (record_entry clock (Some ts) (metrics w)).1 as [[]|e] eqn:Hr;
      [done|].
    apply record_entry_raise_inv in Hr as (_ & t & last & [= <-] & Hl & Hne).
    by destruct (Hne (Hkind last Hl)).
Qed.

Lemma X18_witness :
  let ns_format : gmap string value :=
    {[ "created_at" := VStr "2024-01-01T00:00:00Z" ]} in
  let w := {| metrics := init; logger := [] |} in
  let w' := (patched_upload_entry Iso.iso_parse unit unit
               (fun _ _ _ => Ok tt) 1704067260000000 tt ns_format
               "treatments" w).2 in
  total_entries (metrics w') = 1
  ∧ _entries_buffer (metrics w') = [now_utc 1704067260000000]
  ∧ last_entry_time (metrics w')
    = Some {| dt_wall := 1704067200000000; dt_utcoffset := Some 0 |}
  ∧ logger w' = [Info "Intercepted upload for treatments"].
Proof.
  cbn zeta.
  assert (Hk : ({[ "created_at" := VStr "2024-01-01T00:00:00Z" ]}
                  : gmap string value) !! "created_at"
               = Some (VStr "2024-01-01T00:00:00Z")) by reflexivity.
  assert (Hp : Iso.iso_parse (str_replace "Z" "+00:00" "2024-01-01T00:00:00Z")
               = Some {| dt_wall := 1704067200000000;
                         dt_utcoffset := Some 0 |}) by reflexivity.
  destruct (X18_parsed_upload_is_recorded Iso.iso_parse unit unit
              (fun _ _ _ => Ok tt) 1704067260000000 tt _ "treatments"
              {| metrics := init; logger := [] |} _ _ Hk Hp
              (fun last (H : None = Some last) =>
                 match H in _ = o
                   return match o with Some _ => _ | None => True end
                 with eq_refl => I end))
    as (H1 & _ & H3 & H4 & H5).
  split; [rewrite H1; reflexivity|]. split; [rewrite H3; reflexivity|].
  split; [rewrite H4; reflexivity|]. rewrite H5. reflexivity.
Defined.

(** * The 24-hour test on doubles *)

(** ** Rounding error *)

Lemma f64_unit_spacing : f64_unit = 2097152 * f64_spacing.
Proof. reflexivity. Qed.

Lemma f64_spacing_pos : 0 < f64_spacing.
Proof. reflexivity. Qed.

Lemma f64_unit_range : 2 ^ 1106 = 2 ^ 32 * f64_unit.
Proof. reflexivity. Qed.

Lemma round_half_even_error p q :
  0 < q → 2 * Z.abs (round_half_even p q * q - p) ≤ q.
Proof.
  intros Hq. unfold round_half_even.
  pose proof (Z.div_mod p q ltac:(lia)) as Hdm.
  pose proof (Z.mod_pos_bound p q Hq) as Hr.
  destruct (2 * (p mod q) <? q) eqn:H1; [apply Z.ltb_lt in H1; nia|].
  apply Z.ltb_ge in H1.
  destruct (q <? 2 * (p mod q)) eqn:H2; [apply Z.ltb_lt in H2; nia|].
  apply Z.ltb_ge in H2.
  destruct (Z.even (p / q)); nia.
Qed.

Lemma round_pos_error p q :
  0 ≤ p → 0 < q → p < 2 ^ 1106 * q →
  2 * Z.abs (round_pos p q * q - p) ≤ q * f64_spacing.
Proof.
  intros Hp Hq Hlt. unfold round_pos.
  set (j := Z.max 0 (Z.log2 (p / q) + 1 - 53)).
  assert (Hj : 0 ≤ j ≤ 1053).
  { unfold j. split; [lia|].
    assert (Z.log2 (p / q) < 1106); [|lia].
    assert (Hf : 0 ≤ p / q) by (apply Z.div_pos; lia).
    destruct (Z.eq_dec (p / q) 0) as [-> | Hne]; [reflexivity|].
    apply Z.log2_lt_pow2; [lia|].
    apply Z.div_lt_upper_bound; lia. }
  assert (Hpow : 0 < 2 ^ j ≤ f64_spacing).
  { split; [apply Z.pow_pos_nonneg; lia|].
    unfold f64_spacing. apply Z.pow_le_mono_r; lia. }
  pose proof (round_half_even_error p (q * 2 ^ j) ltac:(nia)) as He.
  replace (round_half_even p (q * 2 ^ j) * 2 ^ j * q)
    with (round_half_even p (q * 2 ^ j) * (q * 2 ^ j)) by ring.
  nia.
Qed.

Lemma round_f64_error p q :
  0 < q → - (2 ^ 1106 * q) < p < 2 ^ 1106 * q →
  2 * Z.abs (round_f64 p q * q - p) ≤ q * f64_spacing.
Proof.
  intros Hq Hp. unfold round_f64.
  destruct (p <? 0) eqn:Hneg.
  - apply Z.ltb_lt in Hneg.
    pose proof (round_pos_error (- p) q ltac:(lia) Hq ltac:(lia)) as He.
    replace (- round_pos (- p) q * q - p)
      with (- (round_pos (- p) q * q - - p)) by ring.
    by rewrite Z.abs_opp.
  - apply Z.ltb_ge in Hneg. apply round_pos_error; lia.
Qed.

Lemma timestamp_f64_error t :
  0 ≤ t < f64_range →
  2 * Z.abs (timestamp_f64 (now_utc t) * 1000000 - t * f64_unit)
  ≤ 1000000 * f64_spacing.
Proof.
  intros Ht. unfold timestamp_f64. rewrite timestamp_now_utc.
  apply round_f64_error; [lia|].
  rewrite f64_unit_range. unfold f64_range in Ht.
  pose proof f64_spacing_pos. pose proof f64_unit_spacing.
  nia.
Qed.

Lemma cutoff_f64_error c :
  0 ≤ c < f64_range →
  2 * Z.abs (cutoff_f64 c
             - (timestamp_f64 (now_utc c) - 24 * 3600 * f64_unit))
  ≤ f64_spacing.
Proof.
  intros Hc. unfold cutoff_f64, f64_sub_int.
  pose proof (timestamp_f64_error c Hc) as He.
  pose proof f64_spacing_pos as Hs. pose proof f64_unit_spacing as Hu.
  unfold f64_range in Hc.
  pose proof (round_f64_error
                (timestamp_f64 (now_utc c) - 24 * 3600 * f64_unit) 1
                ltac:(lia)) as Hr.
  rewrite !Z.mul_1_r, Z.mul_1_l in Hr. apply Hr.
  rewrite f64_unit_range. nia.
Qed.

(** An arrival more than 24 hours before the snapshot fails the test. *)
Lemma f64_older_pruned c t :
  0 ≤ c < f64_range → 0 ≤ t < f64_range →
  t < c - window →
  timestamp_f64 (now_utc t) ≤ cutoff_f64 c.
Proof.
  intros Hc Ht Hlt.
  pose proof (timestamp_f64_error t Ht) as He1.
  pose proof (timestamp_f64_error c Hc) as He2.
  pose proof (cutoff_f64_error c Hc) as He3.
  pose proof f64_spacing_pos as Hs. pose proof f64_unit_spacing as Hu.
  unfold window in Hlt.
  assert (Hgap : 0 ≤ (c - 86400000000 - t - 1) * f64_spacing) by nia.
  rewrite Hu in *. lia.
Qed.

(** An arrival less than 24 hours before the snapshot passes it. *)
Lemma f64_newer_kept c t :
  0 ≤ c < f64_range → 0 ≤ t < f64_range →
  c - window < t →
  cutoff_f64 c < timestamp_f64 (now_utc t).
Proof.
  intros Hc Ht Hlt.
  pose proof (timestamp_f64_error t Ht) as He1.
  pose proof (timestamp_f64_error c Hc) as He2.
  pose proof (cutoff_f64_error c Hc) as He3.
  pose proof f64_spacing_pos as Hs. pose proof f64_unit_spacing as Hu.
  unfold window in Hlt.
  assert (Hgap : 0 ≤ (t - (c - 86400000000) - 1) * f64_spacing) by nia.
  rewrite Hu in *. lia.
Qed.

(** At the boundary the outcome depends on the rounding: the entry that
    arrived exactly 24 hours before the snapshot is pruned at the first
    pair of instants and kept at the second. *)
Lemma f64_boundary_varies :
  ¬ (cutoff_f64 1704153600000000 < timestamp_f64 (now_utc 1704067200000000))
  ∧ cutoff_f64 2147484648000003 < timestamp_f64 (now_utc 2147398248000003).
Proof. split; vm_compute; [discriminate|reflexivity]. Qed.

(** ** Histories with the double-precision snapshot *)

Lemma get_metrics_f64_state isoformat clock m :
  (get_metrics_f64 isoformat clock m).2 =
  set_buffer
    (filter (fun t => cutoff_f64 clock < timestamp_f64 t) (_entries_buffer m))
    m.
Proof. reflexivity. Qed.

Lemma get_metrics_f64_window isoformat clock m :
  entriesLast24Hours (get_metrics_f64 isoformat clock m).1 =
  Z.of_nat (length (_entries_buffer (get_metrics_f64 isoformat clock m).2)).
Proof. reflexivity. Qed.

Lemma run_f64_snoc isoformat h o m :
  run_f64 isoformat (h ++ [o]) m = step_f64 isoformat o (run_f64 isoformat h m).
Proof. unfold run_f64. by rewrite fold_left_app. Qed.

Lemma run_f64_last isoformat h m :
  last_entry_time (run_f64 isoformat h m) = last_entry_time (run isoformat h m).
Proof.
  induction h as [|o h IH] using rev_ind; [done|].
  rewrite run_f64_snoc, run_snoc.
  destruct o as [clock ts|clock]; cbn [step step_f64].
  - by rewrite !record_entry_last, IH.
  - by rewrite get_metrics_f64_state, get_metrics_state.
Qed.

Lemma run_f64_buffer_elem isoformat h e :
  e ∈ _entries_buffer (run_f64 isoformat h init) →
  ∃ o, o ∈ h ∧ e = now_utc (op_clock o).
Proof.
  induction h as [|o h IH] using rev_ind.
  { intros He. by apply elem_of_nil in He. }
  rewrite run_f64_snoc.
  assert (Hweak : ∀ o', (∃ o0, o0 ∈ h ∧ e = now_utc (op_clock o0)) →
                        ∃ o0, o0 ∈ h ++ [o'] ∧ e = now_utc (op_clock o0)).
  { intros o' (o0 & Ho0 & ->). exists o0. split; [|done].
    apply elem_of_app. by left. }
  destruct o as [clock ts|clock]; cbn [step_f64].
  - destruct (record_entry_buffer_cases clock ts (run_f64 isoformat h init))
      as [-> | (t & -> & ->)].
    + intros He. by apply Hweak, IH.
    + intros [He | ->%list_elem_of_singleton]%elem_of_app.
      * by apply Hweak, IH.
      * exists (Record_entry clock (Some t)). split; [|reflexivity].
        apply elem_of_app. right. by apply list_elem_of_singleton.
  - rewrite get_metrics_f64_state. cbn.
    intros [_ He]%list_elem_of_filter. by apply Hweak, IH.
Qed.

Lemma step_f64_buffer_accepted isoformat h clock ts :
  _entries_buffer (run_f64 isoformat (h ++ [Record_entry clock (Some ts)]) init)
  = _entries_buffer (run_f64 isoformat h init) ++
    (now_utc <$>
       (if decide (aware ts
                   = default (aware ts) (aware <$> head (timestamps h)))
        then [(clock, ts)] else []).*1).
Proof.
  rewrite run_f64_snoc. cbn [step_f64].
  rewrite record_entry_buffer_accepted, run_f64_last, run_last_awareness.
  by case_decide.
Qed.

Lemma filter_filter_elem {A} (P Q : A → Prop)
    `{!∀ x, Decision (P x), !∀ x, Decision (Q x)} (l : list A) :
  (∀ x, x ∈ l → P x → Q x) →
  filter P (filter Q l) = filter P l.
Proof.
  induction l as [|x l IH]; [done|]. intros Himp.
  assert (IH' : filter P (filter Q l) = filter P l).
  { apply IH. intros y Hy. apply Himp. by right. }
  destruct (decide (Q x)) as [Hq | Hq].
  - rewrite (filter_cons_True Q) by done. rewrite !filter_cons, IH'. done.
  - rewrite (filter_cons_False Q) by done.
    rewrite (filter_cons_False P); [done|].
    intros Hp. apply Hq, Himp; [by left|done].
Qed.

Lemma length_filter_mono {A} (P Q : A → Prop)
    `{!∀ x, Decision (P x), !∀ x, Decision (Q x)} (l : list A) :
  (∀ x, x ∈ l → P x → Q x) →
  (length (filter P l) ≤ length (filter Q l))%nat.
Proof.
  induction l as [|x l IH]; [done|]. intros Himp.
  assert (IH' : (length (filter P l) ≤ length (filter Q l))%nat).
  { apply IH. intros y Hy. apply Himp. by right. }
  rewrite !filter_cons.
  destruct (decide (P x)) as [Hp | Hp].
  - rewrite decide_True by (apply Himp; [by left|done]). cbn. lia.
  - destruct (decide (Q x)); cbn; lia.
Qed.

Lemma filter_window_now_f64 (C c : Z) :
  filter (fun t => cutoff_f64 C < timestamp_f64 t) [now_utc c]
  = now_utc <$> filter (fun c => cutoff_f64 C < timestamp_f64 (now_utc c)) [c].
Proof.
  rewrite !filter_cons, !filter_nil. by case_decide.
Qed.

Lemma run_f64_buffer_window isoformat h C :
  Forall (fun o => 0 ≤ op_clock o ≤ C) h →
  C < f64_range →
  filter (fun t => cutoff_f64 C < timestamp_f64 t)
    (_entries_buffer (run_f64 isoformat h init))
  = now_utc <$>
      filter (fun c => cutoff_f64 C < timestamp_f64 (now_utc c))
        (accepted_calls h).*1.
Proof.
  intros Hh HC. induction h as [|o h IH] using rev_ind; [done|].
  apply Forall_app in Hh as [Hh Ho]. rewrite Forall_singleton in Ho.
  specialize (IH Hh).
  rewrite accepted_calls_snoc, fmap_app, filter_app, fmap_app, <- IH.
  destruct o as [clock [ts|]|clock]; cbn [op_clock] in *.
  - rewrite step_f64_buffer_accepted, filter_app. f_equal.
    case_decide; [|done]. apply filter_window_now_f64.
  - rewrite run_f64_snoc. cbn. by rewrite app_nil_r.
  - rewrite run_f64_snoc. cbn [step_f64].
    rewrite get_metrics_f64_state, app_nil_r. cbn.
    apply filter_filter_elem. intros e He HeC.
    apply run_f64_buffer_elem in He as (o & Ho' & ->).
    rewrite Forall_forall in Hh. specialize (Hh o Ho').
    destruct (decide (clock = C)) as [-> | Hne]; [done|].
    destruct (decide (clock - window < op_clock o)) as [Hn | Hn].
    + apply f64_newer_kept; lia.
    + assert (Hold : timestamp_f64 (now_utc (op_clock o)) ≤ cutoff_f64 C)
        by (apply f64_older_pruned; lia).
      lia.
Qed.

Lemma timed_calls_clock h c :
  c ∈ (timed_calls h).*1 → ∃ o, o ∈ h ∧ op_clock o = c.
Proof.
  unfold timed_calls. intros ([c' t] & -> & Hin)%list_elem_of_fmap.
  apply list_elem_of_omap in Hin as (o & Ho & Heq).
  exists o. split; [done|].
  destruct o as [clock [ts|]|clock]; by simplify_eq.
Qed.

Lemma accepted_calls_sub h c :
  c ∈ (accepted_calls h).*1 → c ∈ (timed_calls h).*1.
Proof.
  unfold accepted_calls.
  destruct (head (timestamps h)) as [first|].
  - intros (ct & -> & [_ Hin]%list_elem_of_filter)%list_elem_of_fmap.
    by apply list_elem_of_fmap_2.
  - intros H. by apply elem_of_nil in H.
Qed.

Lemma accepted_calls_comparable h :
  comparable (timestamps h) → accepted_calls h = timed_calls h.
Proof.
  intros Hc. unfold accepted_calls.
  destruct (head (timestamps h)) as [first|] eqn:Hhead.
  - assert (Hfirst : first ∈ timestamps h).
    { destruct (timestamps h); [discriminate|].
      injection Hhead as ->. by left. }
    assert (Hall : ∀ ct, ct ∈ timed_calls h → aware ct.2 = aware first).
    { intros ct Hct. apply (comparable_elem _ _ _ Hc); [|done].
      unfold timestamps. by apply list_elem_of_fmap_2. }
    clear Hhead Hfirst Hc. induction (timed_calls h) as [|ct l IH]; [done|].
    rewrite filter_cons_True by (apply Hall; by left).
    f_equal. apply IH. intros ct' Hct'. apply Hall. by right.
  - unfold timestamps in Hhead. by destruct (timed_calls h).
Qed.

(** The count of a double-precision snapshot taken no earlier than the
    calls before it lies between the number of accepted calls that arrived
    less than 24 hours before and the number that arrived no more than 24
    hours before. *)
Lemma run_f64_window_bracket isoformat h C :
  Forall (fun o => 0 ≤ op_clock o ≤ C) h →
  C < f64_range →
  let count :=
    entriesLast24Hours
      (get_metrics_f64 isoformat C (run_f64 isoformat h init)).1 in
  Z.of_nat (length (filter (fun c => C - window < c) (accepted_calls h).*1))
  ≤ count
  ∧ count
    ≤ Z.of_nat (length (filter (fun c => C - window ≤ c)
                          (accepted_calls h).*1)).
Proof.
  intros Hh HC. cbn zeta.
  rewrite get_metrics_f64_window, get_metrics_f64_state. cbn.
  rewrite run_f64_buffer_window, length_fmap by done.
  assert (Hrange : ∀ c, c ∈ (accepted_calls h).*1 → 0 ≤ c ≤ C).
  { intros c Hc. apply accepted_calls_sub, timed_calls_clock in Hc
      as (o & Ho & <-).
    rewrite Forall_forall in Hh. by apply Hh. }
  split; apply inj_le, length_filter_mono; intros c Hc Hp;
    specialize (Hrange c Hc).
  - apply f64_newer_kept; lia.
  - destruct (decide (C - window ≤ c)) as [|Hn]; [done|].
    assert (timestamp_f64 (now_utc c) ≤ cutoff_f64 C)
      by (apply f64_older_pruned; lia).
    lia.
Qed.

(** C2, as the code has it.  For clock readings from the epoch up to 2^32
    seconds: a snapshot keeps every buffered entry that arrived less than
    24 hours before it and prunes every entry that arrived more than 24
    hours before it; what it keeps is exactly what passes the comparison
    of the two doubles, so an entry exactly 24 hours old is not promised
    either way.  When the snapshot is taken no earlier than the calls
    before it and the timestamps passed can be compared with one another,
    [entriesLast24Hours] is at least the number of timed calls that
    arrived less than 24 hours before the snapshot and at most the number
    that arrived no more than 24 hours before it; it is that number when
    no call arrived exactly 24 hours before. *)
Theorem C2_window_is_recent_timed_calls (isoformat : datetime -> string)
    (history : list op) (clock : Z) :
  Forall (fun o => 0 ≤ op_clock o ≤ clock) history →
  clock < f64_range →
  comparable (timestamps history) →
  let m := run_f64 isoformat history init in
  let snap := get_metrics_f64 isoformat clock m in
  (∀ e, e ∈ _entries_buffer (snap.2)
        ↔ e ∈ _entries_buffer m ∧ cutoff_f64 clock < timestamp_f64 e)
  ∧ (∀ e, e ∈ _entries_buffer m → clock - window < timestamp e →
          e ∈ _entries_buffer (snap.2))
  ∧ (∀ e, e ∈ _entries_buffer m → timestamp e < clock - window →
          e ∉ _entries_buffer (snap.2))
  ∧ _entries_buffer (snap.2) `sublist_of` _entries_buffer m
  ∧ Z.of_nat (length (arrivals_within clock history))
    ≤ entriesLast24Hours (snap.1)
  ∧ entriesLast24Hours (snap.1)
    ≤ Z.of_nat (length (arrivals_not_older clock history))
  ∧ (Forall (fun c => c ≠ clock - window) (timed_calls history).*1 →
     entriesLast24Hours (snap.1)
     = Z.of_nat (length (arrivals_within clock history))).
Proof.
  intros Hclock Hrange Hc m snap.
  assert (Hmem : ∀ e, e ∈ _entries_buffer (snap.2)
                      ↔ e ∈ _entries_buffer m
                        ∧ cutoff_f64 clock < timestamp_f64 e).
  { intros e. unfold snap. rewrite get_metrics_f64_state. cbn.
    rewrite list_elem_of_filter. tauto. }
  assert (Hfrom : ∀ e, e ∈ _entries_buffer m →
                       ∃ a, e = now_utc a ∧ 0 ≤ a ≤ clock).
  { intros e He. apply run_f64_buffer_elem in He as (o & Ho & ->).
    rewrite Forall_forall in Hclock. eauto. }
  pose proof (run_f64_window_bracket isoformat history clock Hclock Hrange)
    as [Hlo Hhi].
  rewrite (accepted_calls_comparable history Hc) in Hlo, Hhi.
  fold (arrivals_within clock history) in Hlo.
  fold (arrivals_not_older clock history) in Hhi.
  split_and!; try done.
  - intros e He Hnew. apply Hmem. split; [done|].
    destruct (Hfrom e He) as (a & -> & Ha).
    rewrite timestamp_now_utc in Hnew. apply f64_newer_kept; lia.
  - intros e He Hold [_ Hkept]%Hmem.
    destruct (Hfrom e He) as (a & -> & Ha).
    rewrite timestamp_now_utc in Hold.
    assert (timestamp_f64 (now_utc a) ≤ cutoff_f64 clock)
      by (apply f64_older_pruned; lia).
    lia.
  - unfold snap. rewrite get_metrics_f64_state. cbn. apply sublist_filter.
  - intros Hnb.
    assert (Hle : (length (arrivals_not_older clock history)
                   ≤ length (arrivals_within clock history))%nat).
    { apply length_filter_mono. intros c Hin Hp.
      rewrite Forall_forall in Hnb. specialize (Hnb c Hin). lia. }
    subst snap m. cbn zeta in Hlo, Hhi. lia.
Qed.

Lemma C2_witness :
  let t := {| dt_wall := 1704067200000000; dt_utcoffset := Some 0 |} in
  let history :=
    [Record_entry 1704067200000000 (Some t);
     Record_entry 1704067201000000 None;
     Get_metrics 1704070800000000;
     Record_entry 1704153600000000 (Some t);
     Record_entry 1704153601000000 (Some t)] in
  let clock := 1704153602000000 in
  Forall (fun o => 0 ≤ op_clock o ≤ clock) history
  ∧ clock < f64_range
  ∧ comparable (timestamps history)
  ∧ Forall (fun c => c ≠ clock - window) (timed_calls history).*1
  ∧ arrivals_within clock history = [1704153600000000; 1704153601000000]
  ∧ entriesLast24Hours
      (get_metrics_f64 Iso.iso_format clock
         (run_f64 Iso.iso_format history init)).1
    = 2.
Proof.
  cbn zeta.
  assert (Hclock : Forall (fun o => 0 ≤ op_clock o ≤ 1704153602000000)
    [Record_entry 1704067200000000
       (Some {| dt_wall := 1704067200000000; dt_utcoffset := Some 0 |});
     Record_entry 1704067201000000 None;
     Get_metrics 1704070800000000;
     Record_entry 1704153600000000
       (Some {| dt_wall := 1704067200000000; dt_utcoffset := Some 0 |});
     Record_entry 1704153601000000
       (Some {| dt_wall := 1704067200000000; dt_utcoffset := Some 0 |})]).
  { repeat constructor; cbn; lia. }
  assert (Hrange : 1704153602000000 < f64_range) by reflexivity.
  assert (Hc : comparable (timestamps
    [Record_entry 1704067200000000
       (Some {| dt_wall := 1704067200000000; dt_utcoffset := Some 0 |});
     Record_entry 1704067201000000 None;
     Get_metrics 1704070800000000;
     Record_entry 1704153600000000
       (Some {| dt_wall := 1704067200000000; dt_utcoffset := Some 0 |});
     Record_entry 1704153601000000
       (Some {| dt_wall := 1704067200000000; dt_utcoffset := Some 0 |})])).
  { left. repeat constructor. }
  assert (Hnb : Forall (fun c => c ≠ 1704153602000000 - window)
    (timed_calls
       [Record_entry 1704067200000000
          (Some {| dt_wall := 1704067200000000; dt_utcoffset := Some 0 |});
        Record_entry 1704067201000000 None;
        Get_metrics 1704070800000000;
        Record_entry 1704153600000000
          (Some {| dt_wall := 1704067200000000; dt_utcoffset := Some 0 |});
        Record_entry 1704153601000000
          (Some {| dt_wall := 1704067200000000; dt_utcoffset := Some 0 |})]).*1).
  { repeat constructor; unfold window; cbn; lia. }
  split; [exact Hclock|]. split; [exact Hrange|]. split; [exact Hc|].
  split; [exact Hnb|]. split; [reflexivity|].
  destruct (C2_window_is_recent_timed_calls Iso.iso_format _ _
              Hclock Hrange Hc) as (_ & _ & _ & _ & _ & _ & Heq).
  rewrite (Heq Hnb). reflexivity.
Defined.

(** C2 as worded fails at the boundary: the entry that arrived at
    2024-01-01T00:00:00Z is exactly 24 hours old at the snapshot of
    2024-01-02T00:00:00Z, the two doubles are equal, and the entry is
    dropped and not counted.  It also fails when a naive timestamp follows
    an aware one: the second call raises before it reaches the buffer, so
    a call that carried a parsed timestamp a second ago is not counted. *)
Lemma C2_counterexample :
  let t := {| dt_wall := 1704067200000000; dt_utcoffset := Some 0 |} in
  let t_naive := {| dt_wall := 1704067200000000; dt_utcoffset := None |} in
  let arrival := 1704067200000000 in
  let clock := 1704153600000000 in
  let history := [Record_entry arrival (Some t)] in
  let m := run_f64 Iso.iso_format history init in
  let snap := get_metrics_f64 Iso.iso_format clock m in
  let mixed :=
    [Record_entry arrival (Some t); Record_entry (arrival + 1000000) (Some t_naive)] in
  let snap_mixed :=
    get_metrics_f64 Iso.iso_format (arrival + 2000000)
      (run_f64 Iso.iso_format mixed init) in
  (clock - timestamp (now_utc arrival) = 24 * 3600 * 1000000
   ∧ timestamp_f64 (now_utc arrival) = cutoff_f64 clock
   ∧ _entries_buffer m = [now_utc arrival]
   ∧ _entries_buffer (snap.2) = []
   ∧ entriesLast24Hours (snap.1) = 0
   ∧ arrivals_not_older clock history = [arrival]
   ∧ entriesLast24Hours (snap.1)
     ≠ Z.of_nat (length (arrivals_not_older clock history)))
  ∧ (arrivals_not_older (arrival + 2000000) mixed
     = [arrival; arrival + 1000000]
     ∧ entriesLast24Hours (snap_mixed.1) = 1
     ∧ entriesLast24Hours (snap_mixed.1)
       ≠ Z.of_nat (length (arrivals_not_older (arrival + 2000000) mixed))).
Proof.
  cbn zeta. split; split_and!; try (vm_compute; reflexivity);
    vm_compute; discriminate.
Qed.

(** X6: with no condition on the timestamps: a timed call enters the
    window buffer exactly when its timestamp is of the same kind (aware
    or naive) as the first timestamp ever passed.  [record_entry] never
    prunes, so after record calls only the buffer is the arrival instants
    of all those calls, however old.  A snapshot taken no earlier than the
    calls of any history before it (clock readings from the epoch up to
    2^32 seconds) reports at least the number of those calls that arrived
    less than 24 hours before it and at most the number that arrived no
    more than 24 hours before it. *)
Theorem X6_window_counts_accepted_calls (isoformat : datetime -> string) :
  (∀ calls,
     _entries_buffer (run isoformat (records calls) init)
     = now_utc <$> (accepted_calls (records calls)).*1)
  ∧ (∀ history clock,
       Forall (fun o => 0 ≤ op_clock o ≤ clock) history →
       clock < f64_range →
       let count :=
         entriesLast24Hours
           (get_metrics_f64 isoformat clock
              (run_f64 isoformat history init)).1 in
       Z.of_nat (length (filter (fun c => clock - window < c)
                           (accepted_calls history).*1))
       ≤ count
       ∧ count
         ≤ Z.of_nat (length (filter (fun c => clock - window ≤ c)
                               (accepted_calls history).*1))).
Proof.
  split.
  - apply run_records_buffer_accepted.
  - intros history clock Hclock Hrange.
    by apply run_f64_window_bracket.
Qed.

Lemma X6_witness :
  let t := {| dt_wall := 1704067200000000; dt_utcoffset := Some 0 |} in
  let t_naive := {| dt_wall := 1704067200000000; dt_utcoffset := None |} in
  let history :=
    [Record_entry 1704067200000000 (Some t);
     Record_entry 1704067201000000 (Some t_naive);
     Get_metrics 1704067202000000;
     Record_entry 1704067203000000 (Some t)] in
  let clock := 1704067204000000 in
  Forall (fun o => 0 ≤ op_clock o ≤ clock) history
  ∧ clock < f64_range
  ∧ (accepted_calls history).*1 = [1704067200000000; 1704067203000000]
  ∧ 2 ≤ entriesLast24Hours
          (get_metrics_f64 Iso.iso_format clock
             (run_f64 Iso.iso_format history init)).1
      ≤ 2.
Proof.
  cbn zeta.
  assert (Hclock : Forall (fun o => 0 ≤ op_clock o ≤ 1704067204000000)
    [Record_entry 1704067200000000
       (Some {| dt_wall := 1704067200000000; dt_utcoffset := Some 0 |});
     Record_entry 1704067201000000
       (Some {| dt_wall := 1704067200000000; dt_utcoffset := None |});
     Get_metrics 1704067202000000;
     Record_entry 1704067203000000
       (Some {| dt_wall := 1704067200000000; dt_utcoffset := Some 0 |})]).
  { repeat constructor; cbn; lia. }
  assert (Hrange : 1704067204000000 < f64_range) by reflexivity.
  split; [exact Hclock|]. split; [exact Hrange|]. split; [reflexivity|].
  exact (proj2 (X6_window_counts_accepted_calls Iso.iso_format) _ _
           Hclock Hrange).
Defined.

(** ** Where the two snapshots agree *)

Lemma filter_ext_elem {A} (P Q : A → Prop)
    `{!∀ x, Decision (P x), !∀ x, Decision (Q x)} (l : list A) :
  (∀ x, x ∈ l → (P x ↔ Q x)) → filter P l = filter Q l.
Proof.
  induction l as [|x l IH]; [done|]. intros Hiff.
  rewrite !filter_cons, IH by (intros y Hy; apply Hiff; by right).
  apply decide_ext, Hiff. by left.
Qed.

(** The snapshot on doubles is the snapshot on exact instants whenever no
    buffered entry is exactly 24 hours old (clock readings from the epoch
    up to 2^32 seconds): away from the boundary, what is proved of
    [get_metrics] holds of the comparison the source makes. *)
Lemma get_metrics_f64_exact isoformat clock m :
  0 ≤ clock < f64_range →
  (∀ e, e ∈ _entries_buffer m →
        ∃ a, e = now_utc a ∧ 0 ≤ a < f64_range ∧ a ≠ clock - window) →
  get_metrics_f64 isoformat clock m = get_metrics isoformat clock m.
Proof.
  intros Hc Hbuf.
  assert (Hf : filter (fun t => cutoff_f64 clock < timestamp_f64 t)
                 (_entries_buffer m)
               = filter (fun t => clock - window < timestamp t)
                   (_entries_buffer m)).
  { apply filter_ext_elem. intros e He.
    destruct (Hbuf e He) as (a & -> & Ha & Hne).
    rewrite timestamp_now_utc. split.
    - intros Hk. destruct (decide (clock - window < a)) as [|Hn]; [done|].
      assert (timestamp_f64 (now_utc a) ≤ cutoff_f64 clock)
        by (apply f64_older_pruned; lia).
      lia.
    - intros Hn. apply f64_newer_kept; lia. }
  unfold get_metrics_f64, get_metrics. fold (cutoff_f64 clock).
  rewrite timestamp_now_utc, Hf. reflexivity.
Qed.
